(** * Offline Pay backend: voucher settlement and balance ledger

    A shallow embedding of the request handlers of [index.js]
    ([POST /api/vouchers/sync], [POST /api/balance/add],
    [POST /api/balance/deduct]) and of the two MongoDB collections they
    read and write, followed by the properties of the settlement path.

    Modelling conventions.
    - A request body is parsed JSON.  Field values are the JSON scalars
      plus [undefined] for an absent field; batch elements are objects.
    - JavaScript numbers are modelled by mathematical integers (amounts are
      integral minor units); IEEE-754 rounding is not represented.
    - A collection is the list of its documents in insertion order;
      [findOne] returns the first match, [insertOne] appends.
    - The elliptic-curve library and SHA-256 are parameters of the
      settlement section; a thrown exception is [None].
    - [new Date().toISOString()] is the clock reading carried by a request. *)

From Stdlib Require Import ZArith List String Ascii Bool Lia.
From Stdlib Require Import DecimalString DecimalZ DecimalPos Permutation.
Import ListNotations.
Local Open Scope string_scope.
Local Open Scope Z_scope.

(* ------------------------------------------------------------------ *)
(** ** JavaScript values *)

Module Js.

Inductive value : Type :=
| Undefined
| Null
| Bool (b : bool)
| Num (z : Z)
| Str (s : string).

(** [!x] is [negb (truthy x)]. *)
Definition truthy (x : value) : bool :=
  match x with
  | Undefined | Null => false
  | Bool b => b
  | Num z => negb (z =? 0)
  | Str s => negb (s =? EmptyString)%string
  end.

(** [typeof x === "number"] *)
Definition is_number (x : value) : bool :=
  match x with Num _ => true | _ => false end.

(** [x === y] on scalars; also the equality a MongoDB filter
    [{field: x}] applies to a stored scalar when [x] is truthy. *)
Definition strict_eq (x y : value) : bool :=
  match x, y with
  | Undefined, Undefined => true
  | Null, Null => true
  | Bool a, Bool b => Bool.eqb a b
  | Num a, Num b => a =? b
  | Str a, Str b => (a =? b)%string
  | _, _ => false
  end.

(** [x <= 0] for a number [x]. *)
Definition le_zero (x : value) : bool :=
  match x with Num z => z <=? 0 | _ => false end.

(** The numeric content of a number. *)
Definition to_Z (x : value) : Z :=
  match x with Num z => z | _ => 0 end.

End Js.

(* ------------------------------------------------------------------ *)
(** ** JSON.stringify on an object of scalar members *)

Module JSON.

Definition hex_digit (n : N) : ascii :=
  match n with
  | 0%N => "0" | 1%N => "1" | 2%N => "2" | 3%N => "3"
  | 4%N => "4" | 5%N => "5" | 6%N => "6" | 7%N => "7"
  | 8%N => "8" | 9%N => "9" | 10%N => "a" | 11%N => "b"
  | 12%N => "c" | 13%N => "d" | 14%N => "e" | _ => "f"
  end%char.

Definition dquote : string := String (ascii_of_N 34) EmptyString.

(** One code unit of QuoteJSONString. *)
Definition escape_char (c : ascii) : string :=
  let n := N_of_ascii c in
  if (n =? 34)%N then String "\" dquote
  else if (n =? 92)%N then "\\"
  else if (n =? 8)%N then "\b"
  else if (n =? 12)%N then "\f"
  else if (n =? 10)%N then "\n"
  else if (n =? 13)%N then "\r"
  else if (n =? 9)%N then "\t"
  else if (n <? 32)%N then
    "\u00" ++ String (hex_digit (n / 16))
                (String (hex_digit (n mod 16)) EmptyString)
  else String c EmptyString.

Fixpoint escape (s : string) : string :=
  match s with
  | EmptyString => EmptyString
  | String c rest => escape_char c ++ escape rest
  end.

Definition quote (s : string) : string := dquote ++ escape s ++ dquote.

Definition number_to_string (z : Z) : string :=
  NilZero.string_of_int (Z.to_int z).

(** Serialisation of a member value; [None] when the member is left
    out of the enclosing object ([undefined]). *)
Definition stringify_value (x : Js.value) : option string :=
  match x with
  | Js.Undefined => None
  | Js.Null => Some "null"
  | Js.Bool true => Some "true"
  | Js.Bool false => Some "false"
  | Js.Num z => Some (number_to_string z)
  | Js.Str s => Some (quote s)
  end.

Fixpoint members (o : list (string * Js.value)) : list string :=
  match o with
  | [] => []
  | (k, x) :: rest =>
      match stringify_value x with
      | Some sx => (quote k ++ ":" ++ sx) :: members rest
      | None => members rest
      end
  end.

(** [JSON.stringify(o)] for an object given as its own properties in
    insertion order. *)
Definition stringify (o : list (string * Js.value)) : string :=
  "{" ++ String.concat "," (members o) ++ "}".

(** *** Reading the text back

    A reader for the texts [stringify] produces, used to show that the
    payload text determines every member. *)















End JSON.

(* ------------------------------------------------------------------ *)
(** ** Documents and requests *)

(** A voucher as it arrives in a batch. *)
Module Voucher.
Record t : Type := mk {
  voucherId : Js.value;
  merchantId : Js.value;
  amount : Js.value;
  createdAt : Js.value;
  issuedTo : Js.value;
  publicKeyHex : Js.value;
  signature : Js.value
}.
End Voucher.

(** A document of the [vouchers] collection. *)
Module VoucherDoc.
Record t : Type := mk {
  voucherId : Js.value;
  merchantId : Js.value;
  amount : Js.value;
  createdAt : Js.value;
  issuedTo : Js.value;
  signature : Js.value;
  status : string;
  syncedAt : string
}.
End VoucherDoc.

(** An element of a user's [balanceHistory]. *)
Module History.
Record t : Type := mk {
  type : string;
  amount : Z;
  timestamp : string;
  previousBalance : Z;
  newBalance : Z;
  merchantId : Js.value;
  voucherId : Js.value
}.
End History.

(** A document of the [users] collection, restricted to the fields the
    settlement and balance handlers read or write.  [balance] and
    [balanceHistory] are [None] while the field is absent. *)
Module UserDoc.
Record t : Type := mk {
  userId : Js.value;
  publicKeyHex : Js.value;
  registeredAt : Js.value;
  balance : option Z;
  balanceHistory : option (list History.t)
}.
End UserDoc.

(** An element of the [rejected] array of a sync response. *)
Module Rejected.
Record t : Type := mk {
  voucherId : Js.value;
  reason : string
}.
End Rejected.

(** The database: the two collections the handlers use. *)
Module Db.
Record t : Type := mk {
  vouchers : list VoucherDoc.t;
  users : list UserDoc.t
}.
End Db.

(** ** Collection operations *)

(** [vouchersCollection.findOne({ voucherId: id })] *)
Definition findOne_voucher (id : Js.value) (c : list VoucherDoc.t)
  : option VoucherDoc.t :=
  find (fun d => Js.strict_eq (VoucherDoc.voucherId d) id) c.

(** [usersCollection.findOne({ userId: id })] *)
Definition findOne_user (id : Js.value) (c : list UserDoc.t)
  : option UserDoc.t :=
  find (fun u => Js.strict_eq (UserDoc.userId u) id) c.

(** [insertOne(doc)] *)
Definition insertOne {A : Type} (doc : A) (c : list A) : list A :=
  (c ++ [doc])%list.

(** [countDocuments()] *)
Definition countDocuments {A : Type} (c : list A) : Z :=
  Z.of_nat (List.length c).

(** [usersCollection.updateOne({ userId: id }, upd)]: the first matching
    document is replaced by its update, the others are untouched. *)
Fixpoint updateOne_user (id : Js.value) (upd : UserDoc.t -> UserDoc.t)
         (c : list UserDoc.t) : list UserDoc.t :=
  match c with
  | [] => []
  | u :: rest =>
      if Js.strict_eq (UserDoc.userId u) id then upd u :: rest
      else u :: updateOne_user id upd rest
  end.

(** [{ $set: { balance: b }, $push: { balanceHistory: h } }] *)
Definition set_balance_push_history (b : Z) (h : History.t) (u : UserDoc.t)
  : UserDoc.t :=
  UserDoc.mk (UserDoc.userId u) (UserDoc.publicKeyHex u)
             (UserDoc.registeredAt u) (Some b)
             (Some (match UserDoc.balanceHistory u with
                    | Some l => (l ++ [h])%list
                    | None => [h]
                    end)).

(** [user.balance || 0] *)
Definition balance_or_0 (u : UserDoc.t) : Z :=
  match UserDoc.balance u with
  | Some b => if b =? 0 then 0 else b
  | None => 0
  end.

(** The history array of a user, empty while the field is absent. *)
Definition history_of (u : UserDoc.t) : list History.t :=
  match UserDoc.balanceHistory u with
  | Some l => l
  | None => []
  end.

(* ------------------------------------------------------------------ *)
(** ** POST /api/vouchers/sync *)

Inductive Outcome : Type :=
| Synced
| Reject (reason : string).

Record SyncRequest : Type := mkSyncRequest {
  req_merchantId : Js.value;
  req_vouchers : option (list Voucher.t);   (* [None]: not an array *)
  req_now : string
}.

Inductive SyncResponse : Type :=
| InvalidBody                                  (* 400 *)
| SyncResult (syncedIds : list Js.value)
             (rejected : list Rejected.t)
             (totalStored : Z).

Section Settlement.

(** [crypto.createHash("sha256").update(s).digest("hex")] *)
Variable sha256_hex : string -> string.

(** Keys of the curve object [ec]. *)
Variable Key : Type.

(** [ec.keyFromPublic(pub, "hex")]; [None] when it throws. *)
Variable keyFromPublic : Js.value -> option Key.

(** [key.verify(msg, sig)]; [None] when it throws. *)
Variable key_verify : Key -> string -> Js.value -> option bool.

(** The object literal [payload] of the handler. *)
Definition payload (v : Voucher.t) : list (string * Js.value) :=
  [ ("voucherId", Voucher.voucherId v);
    ("merchantId", Voucher.merchantId v);
    ("amount", Voucher.amount v);
    ("createdAt", Voucher.createdAt v);
    ("issuedTo", Voucher.issuedTo v) ].

Definition payloadStr (v : Voucher.t) : string :=
  JSON.stringify (payload v).

Definition msgHashHex (v : Voucher.t) : string :=
  sha256_hex (payloadStr v).

(** The public key the handler verifies against: the inline key, else
    the stored one ([user?.publicKeyHex]). *)
Definition userPubHex (db : Db.t) (v : Voucher.t) : Js.value :=
  if Js.truthy (Voucher.publicKeyHex v) then Voucher.publicKeyHex v
  else match findOne_user (Voucher.issuedTo v) (Db.users db) with
       | Some user => UserDoc.publicKeyHex user
       | None => Js.Undefined
       end.

(** The body of the [try] block: [Some ok] is the value of
    [signatureOk], [None] means control reached the [catch]. *)
Definition try_verify (pub : Js.value) (msg : string) (sig : Js.value)
  : option bool :=
  match keyFromPublic pub with
  | None => None
  | Some key => key_verify key msg sig
  end.

(** The document stored for an admitted voucher. *)
Definition stored_doc (merchantId : Js.value) (now : string)
           (v : Voucher.t) : VoucherDoc.t :=
  VoucherDoc.mk (Voucher.voucherId v) merchantId (Voucher.amount v)
                (Voucher.createdAt v) (Voucher.issuedTo v)
                (Voucher.signature v) "synced" now.

(** The "auto-register" step. *)
Definition auto_register (now : string) (issuedTo pub : Js.value)
           (users : list UserDoc.t) : list UserDoc.t :=
  match findOne_user issuedTo users with
  | None =>
      if Js.truthy pub
      then insertOne (UserDoc.mk issuedTo pub (Js.Str now) None None) users
      else users
  | Some _ => users
  end.

(** One iteration of the [for (const v of vouchers)] loop. *)
Definition process_voucher (merchantId : Js.value) (now : string)
           (db : Db.t) (v : Voucher.t) : Db.t * Outcome :=
  if negb (Js.truthy (Voucher.voucherId v))
     || negb (Js.truthy (Voucher.merchantId v))
     || negb (Js.is_number (Voucher.amount v))
     || negb (Js.truthy (Voucher.signature v))
  then (db, Reject "Invalid format")
  else if negb (Js.strict_eq (Voucher.merchantId v) merchantId)
  then (db, Reject "Wrong merchantId")
  else if negb (Js.truthy (Voucher.issuedTo v))
  then (db, Reject "Missing issuedTo")
  else
    let pub := userPubHex db v in
    if negb (Js.truthy pub)
    then (db, Reject "Missing public key in voucher")
    else
      match try_verify pub (msgHashHex v) (Voucher.signature v) with
      | Some false => (db, Reject "Bad signature")
      | None => (db, Reject "Signature verify error")
      | Some true =>
          match findOne_voucher (Voucher.voucherId v) (Db.vouchers db) with
          | Some _ => (db, Reject "Duplicate voucherId")
          | None =>
              let users' :=
                auto_register now (Voucher.issuedTo v) pub (Db.users db) in
              let vouchers' :=
                insertOne (stored_doc merchantId now v) (Db.vouchers db) in
              (Db.mk vouchers' users', Synced)
          end
      end.

(** The loop, with the two result arrays as accumulators. *)
Fixpoint sync_loop (merchantId : Js.value) (now : string) (db : Db.t)
         (syncedIds : list Js.value) (rejected : list Rejected.t)
         (vouchers : list Voucher.t)
  : Db.t * list Js.value * list Rejected.t :=
  match vouchers with
  | [] => (db, syncedIds, rejected)
  | v :: rest =>
      match process_voucher merchantId now db v with
      | (db', Synced) =>
          sync_loop merchantId now db'
                    (syncedIds ++ [Voucher.voucherId v])%list rejected rest
      | (db', Reject reason) =>
          let entry := Rejected.mk (Voucher.voucherId v) reason in
          sync_loop merchantId now db' syncedIds (rejected ++ [entry])%list
                    rest
      end
  end.

(** The handler. *)
Definition sync (db : Db.t) (req : SyncRequest) : Db.t * SyncResponse :=
  if negb (Js.truthy (req_merchantId req)) then (db, InvalidBody)
  else
    match req_vouchers req with
    | None => (db, InvalidBody)
    | Some vouchers =>
        let '(db', syncedIds, rejected) :=
          sync_loop (req_merchantId req) (req_now req) db [] [] vouchers in
        (db', SyncResult syncedIds rejected
                         (countDocuments (Db.vouchers db')))
    end.

(** A sequence of sync requests, one after another. *)
Fixpoint sync_all (db : Db.t) (reqs : list SyncRequest)
  : Db.t * list SyncResponse :=
  match reqs with
  | [] => (db, [])
  | req :: rest =>
      let '(db1, resp) := sync db req in
      let '(db2, resps) := sync_all db1 rest in
      (db2, resp :: resps)
  end.

End Settlement.



(* ------------------------------------------------------------------ *)
(** ** POST /api/balance/add and POST /api/balance/deduct *)

Inductive BalanceResponse : Type :=
| Error (status : Z) (error : string)
| Insufficient (status : Z) (error : string) (required available : Z)
| Success (balance amount : Z) (message : string).

(** [!amount || typeof amount !== 'number' || amount <= 0] *)
Definition invalid_amount (amount : Js.value) : bool :=
  negb (Js.truthy amount) || negb (Js.is_number amount) || Js.le_zero amount.

(** The add handler, after [authMiddleware] has put the token's
    [userId] in [req.user]. *)
Definition balance_add (db : Db.t) (userId amount : Js.value) (now : string)
  : Db.t * BalanceResponse :=
  if invalid_amount amount then (db, Error 400 "Invalid amount")
  else if Js.to_Z amount >? 1000
  then (db, Error 400 "Maximum load amount is ₹1000")
  else
    match findOne_user userId (Db.users db) with
    | None => (db, Error 404 "User not found")
    | Some user =>
        let newBalance := balance_or_0 user + Js.to_Z amount in
        let entry :=
          History.mk "add" (Js.to_Z amount) now (balance_or_0 user)
                     newBalance Js.Undefined Js.Undefined in
        (Db.mk (Db.vouchers db)
               (updateOne_user userId
                  (set_balance_push_history newBalance entry) (Db.users db)),
         Success newBalance (Js.to_Z amount)
                 ("₹" ++ JSON.number_to_string (Js.to_Z amount)
                      ++ " added successfully"))
    end.

(** The deduct handler. *)
Definition balance_deduct (db : Db.t) (userId amount merchantId voucherId
                                       : Js.value) (now : string)
  : Db.t * BalanceResponse :=
  if invalid_amount amount then (db, Error 400 "Invalid amount")
  else
    match findOne_user userId (Db.users db) with
    | None => (db, Error 404 "User not found")
    | Some user =>
        let currentBalance := balance_or_0 user in
        if currentBalance <? Js.to_Z amount
        then (db, Insufficient 400 "Insufficient balance"
                               (Js.to_Z amount) currentBalance)
        else
          let newBalance := currentBalance - Js.to_Z amount in
          let entry :=
            History.mk "payment" (Js.to_Z amount) now currentBalance
                       newBalance merchantId voucherId in
          (Db.mk (Db.vouchers db)
                 (updateOne_user userId
                    (set_balance_push_history newBalance entry) (Db.users db)),
           Success newBalance (Js.to_Z amount)
                   ("Payment of ₹" ++ JSON.number_to_string (Js.to_Z amount)
                                   ++ " successful"))
    end.

(** A wallet operation of one identity. *)
Inductive WalletOp : Type :=
| Credit (amount : Js.value) (now : string)
| Debit (amount merchantId voucherId : Js.value) (now : string).

Definition wallet_step (userId : Js.value) (db : Db.t) (op : WalletOp)
  : Db.t * BalanceResponse :=
  match op with
  | Credit amount now => balance_add db userId amount now
  | Debit amount merchantId voucherId now =>
      balance_deduct db userId amount merchantId voucherId now
  end.

(** Operations applied one after another, with their responses. *)
Fixpoint wallet_run (userId : Js.value) (db : Db.t) (ops : list WalletOp)
  : Db.t * list BalanceResponse :=
  match ops with
  | [] => (db, [])
  | op :: rest =>
      let '(db1, resp) := wallet_step userId db op in
      let '(db2, resps) := wallet_run userId db1 rest in
      (db2, resp :: resps)
  end.

(** The balance the handlers see for an identity ([user.balance || 0]). *)
Definition balance_of (db : Db.t) (userId : Js.value) : option Z :=
  option_map balance_or_0 (findOne_user userId (Db.users db)).

(* ------------------------------------------------------------------ *)
(** ** A small stand-in for the curve library, for concrete runs

    Keys are the hex strings starting with [04]; a signature is
    well-formed when it starts with [30], and it verifies when it is
    [30] followed by the key and the message.  Anything else throws. *)

Module Demo.

Definition sha256_hex (s : string) : string := "sha256:" ++ s.

Definition Key : Type := string.

Definition keyFromPublic (pub : Js.value) : option Key :=
  match pub with
  | Js.Str s => if String.prefix "04" s then Some s else None
  | _ => None
  end.

Definition key_verify (key : Key) (msg : string) (sig : Js.value)
  : option bool :=
  match sig with
  | Js.Str s =>
      if String.prefix "30" s
      then Some (s =? "30" ++ key ++ msg)%string
      else None
  | _ => None
  end.

(** The signature the holder of [key] produces for a voucher. *)
Definition sign (key : string) (v : Voucher.t) : Js.value :=
  Js.Str ("30" ++ key ++ msgHashHex sha256_hex v).

Definition process_voucher :=
  process_voucher sha256_hex Key keyFromPublic key_verify.
Definition sync_loop := sync_loop sha256_hex Key keyFromPublic key_verify.
Definition sync := sync sha256_hex Key keyFromPublic key_verify.
Definition sync_all := sync_all sha256_hex Key keyFromPublic key_verify.

(** A voucher signed by the holder of [key], carrying the key inline. *)
Definition signed (id mid : string) (amt : Z) (at_ who key : string)
  : Voucher.t :=
  let unsigned :=
    Voucher.mk (Js.Str id) (Js.Str mid) (Js.Num amt) (Js.Str at_)
               (Js.Str who) (Js.Str key) Js.Undefined in
  Voucher.mk (Js.Str id) (Js.Str mid) (Js.Num amt) (Js.Str at_)
             (Js.Str who) (Js.Str key) (sign key unsigned).

Definition empty_db : Db.t := Db.mk [] [].

End Demo.


(** ** Concrete vouchers, batches and wallets *)

Module Scenario.

Definition M1 : Js.value := Js.Str "M1".
Definition M2 : Js.value := Js.Str "M2".

Definition v1 : Voucher.t :=
  Demo.signed "v1" "M1" 50 "2024-01-01T10:00:00.000Z" "u1" "04aa".

Definition v2 : Voucher.t :=
  Demo.signed "v2" "M1" 30 "2024-01-01T11:00:00.000Z" "u1" "04aa".

(** [v1] with another amount under the original signature. *)
Definition v1_tampered : Voucher.t :=
  Voucher.mk (Voucher.voucherId v1) (Voucher.merchantId v1) (Js.Num 5000)
             (Voucher.createdAt v1) (Voucher.issuedTo v1)
             (Voucher.publicKeyHex v1) (Voucher.signature v1).


(** A voucher whose public key cannot be parsed. *)
Definition v_bad_key : Voucher.t :=
  Voucher.mk (Js.Str "v3") M1 (Js.Num 10) (Js.Str "t") (Js.Str "u1")
             (Js.Str "zz") (Js.Str "3004aa").

(** A voucher whose signature cannot be parsed. *)
Definition v_malformed_signature : Voucher.t :=
  Voucher.mk (Js.Str "v4") M1 (Js.Num 10) (Js.Str "t") (Js.Str "u1")
             (Js.Str "04aa") (Js.Str "xx").

(** A voucher with a well-formed signature that is not valid. *)
Definition v_invalid_signature : Voucher.t :=
  Voucher.mk (Js.Str "v5") M1 (Js.Num 10) (Js.Str "t") (Js.Str "u1")
             (Js.Str "04aa") (Js.Str "30ff").

(** Vouchers with a non-positive amount, properly signed. *)
Definition v_negative : Voucher.t :=
  Demo.signed "v7" "M1" (-50) "2024-01-02T09:00:00.000Z" "u1" "04aa".

Definition v_zero : Voucher.t :=
  Demo.signed "v8" "M1" 0 "2024-01-02T09:30:00.000Z" "u1" "04aa".


(** A voucher of [u1] signed with the key [04aa], without inline key. *)
Definition v6_no_inline_key : Voucher.t :=
  let signed := Demo.signed "v6" "M1" 20 "2024-01-04T08:00:00.000Z"
                            "u1" "04aa" in
  Voucher.mk (Voucher.voucherId signed) (Voucher.merchantId signed)
             (Voucher.amount signed) (Voucher.createdAt signed)
             (Voucher.issuedTo signed) Js.Undefined
             (Voucher.signature signed).

Definition batch (merchantId : Js.value) (vs : list Voucher.t)
           (now : string) : SyncRequest :=
  mkSyncRequest merchantId (Some vs) now.

Definition batch_v1 : SyncRequest := batch M1 [v1] "t1".
Definition batch_v1_twice : SyncRequest := batch M1 [v1; v1] "t1".
Definition batch_v1_by_M2 : SyncRequest := batch M2 [v1] "t2".
Definition batch_v1_tampered : SyncRequest := batch M1 [v1_tampered] "t3".
Definition mixed : list Voucher.t :=
  [v1; v_malformed_signature; v1; v2; v_bad_key].
Definition batch_mixed : SyncRequest := batch M1 mixed "t1".
Definition batch_nonpositive : SyncRequest :=
  batch M1 [v_negative; v_zero] "t1".

(** The database after [batch_v1] on an empty database. *)
Definition db1 : Db.t := fst (Demo.sync Demo.empty_db batch_v1).

(** A wallet holding 100. *)
Definition alice : UserDoc.t :=
  UserDoc.mk (Js.Str "user_1") Js.Null Js.Undefined (Some 100) None.

Definition wallet_db : Db.t := Db.mk [] [alice].

Definition wallet_ops : list WalletOp :=
  [ Credit (Js.Num 500) "t1";
    Debit (Js.Num 120) M1 (Js.Str "v1") "t2";
    Debit (Js.Num 1000) M1 (Js.Str "v2") "t3";
    Credit (Js.Num 2000) "t4";
    Credit (Js.Str "5") "t5" ].

End Scenario.

(* ------------------------------------------------------------------ *)
(** ** The checks of one voucher, named in the order the specification
       lists them *)

Inductive Check : Type :=
| CheckFormat
| CheckMerchant
| CheckIssuedTo
| CheckPublicKey
| CheckSignature
| CheckDuplicate.

Section Checks.

Variable sha256_hex : string -> string.
Variable Key : Type.
Variable keyFromPublic : Js.value -> option Key.
Variable key_verify : Key -> string -> Js.value -> option bool.

(** What a single check answers on its own: the rejection reason when
    it fails, [None] when it passes.  (Second definition, following the
    specification's list of checks; [process_voucher_first_failure]
    compares it with [process_voucher].) *)
Definition check_reason (merchantId : Js.value) (db : Db.t)
           (v : Voucher.t) (c : Check) : option string :=
  match c with
  | CheckFormat =>
      if Js.truthy (Voucher.voucherId v)
         && Js.truthy (Voucher.merchantId v)
         && Js.is_number (Voucher.amount v)
         && Js.truthy (Voucher.signature v)
      then None else Some "Invalid format"
  | CheckMerchant =>
      if Js.strict_eq (Voucher.merchantId v) merchantId
      then None else Some "Wrong merchantId"
  | CheckIssuedTo =>
      if Js.truthy (Voucher.issuedTo v)
      then None else Some "Missing issuedTo"
  | CheckPublicKey =>
      if Js.truthy (userPubHex db v)
      then None else Some "Missing public key in voucher"
  | CheckSignature =>
      match try_verify Key keyFromPublic key_verify (userPubHex db v)
                       (msgHashHex sha256_hex v) (Voucher.signature v) with
      | Some true => None
      | Some false => Some "Bad signature"
      | None => Some "Signature verify error"
      end
  | CheckDuplicate =>
      match findOne_voucher (Voucher.voucherId v) (Db.vouchers db) with
      | Some _ => Some "Duplicate voucherId"
      | None => None
      end
  end.

(** The reason of the first failing check of a list of checks. *)
Fixpoint first_failure (merchantId : Js.value) (db : Db.t) (v : Voucher.t)
         (cs : list Check) : option string :=
  match cs with
  | [] => None
  | c :: rest =>
      match check_reason merchantId db v c with
      | Some r => Some r
      | None => first_failure merchantId db v rest
      end
  end.

Definition checks_before_duplicate : list Check :=
  [CheckFormat; CheckMerchant; CheckIssuedTo; CheckPublicKey;
   CheckSignature].

Definition checks_before_signature : list Check :=
  [CheckFormat; CheckMerchant; CheckIssuedTo; CheckPublicKey].

Definition check_order : list Check :=
  (checks_before_duplicate ++ [CheckDuplicate])%list.

(** The ledger and the key store after a voucher is accepted. *)
Definition commit_voucher (merchantId : Js.value) (now : string) (db : Db.t)
           (v : Voucher.t) : Db.t :=
  Db.mk (insertOne (stored_doc merchantId now v) (Db.vouchers db))
        (auto_register now (Voucher.issuedTo v) (userPubHex db v)
                       (Db.users db)).

(** The outcomes of a batch, voucher by voucher, each decided in the
    database state its predecessors left. *)
Fixpoint sync_trace (merchantId : Js.value) (now : string) (db : Db.t)
         (vouchers : list Voucher.t) : list (Voucher.t * Outcome) :=
  match vouchers with
  | [] => []
  | v :: rest =>
      let '(db', o) :=
        process_voucher sha256_hex Key keyFromPublic key_verify
                        merchantId now db v in
      (v, o) :: sync_trace merchantId now db' rest
  end.



Definition synced_of (tr : list (Voucher.t * Outcome)) : list Js.value :=
  flat_map (fun p => match snd p with
                     | Synced => [Voucher.voucherId (fst p)]
                     | Reject _ => []
                     end) tr.

Definition rejected_of (tr : list (Voucher.t * Outcome))
  : list Rejected.t :=
  flat_map (fun p => match snd p with
                     | Synced => []
                     | Reject r => [Rejected.mk (Voucher.voucherId (fst p)) r]
                     end) tr.

(** The database after a batch. *)
Definition db_after (merchantId : Js.value) (now : string) (db : Db.t)
           (vouchers : list Voucher.t) : Db.t :=
  fst (fst (sync_loop sha256_hex Key keyFromPublic key_verify
                      merchantId now db [] [] vouchers)).

End Checks.

(** How often a voucher identifier occurs in the ledger, and how often it
    is reported as synced. *)
Definition count_id (id : Js.value) (c : list VoucherDoc.t) : nat :=
  List.length (filter (fun d => Js.strict_eq (VoucherDoc.voucherId d) id) c).

Definition count_synced (id : Js.value) (ids : list Js.value) : nat :=
  List.length (filter (fun x => Js.strict_eq x id) ids).

Definition synced_ids (resp : SyncResponse) : list Js.value :=
  match resp with
  | InvalidBody => []
  | SyncResult syncedIds _ _ => syncedIds
  end.

Fixpoint admissions (id : Js.value) (resps : list SyncResponse) : nat :=
  match resps with
  | [] => 0
  | resp :: rest => (count_synced id (synced_ids resp) + admissions id rest)%nat
  end.

Fixpoint total_synced (resps : list SyncResponse) : nat :=
  match resps with
  | [] => 0
  | resp :: rest => (List.length (synced_ids resp) + total_synced rest)%nat
  end.

(** Sums of the amounts of the wallet operations that succeeded. *)
Definition is_success (r : BalanceResponse) : bool :=
  match r with Success _ _ _ => true | _ => false end.




(* ------------------------------------------------------------------ *)
(** ** POST /api/register-key *)

Inductive KeyResponse : Type :=
| KeyInvalidBody            (* 400 { error: "Invalid body" } *)
| KeyOk.                    (* { ok: true } *)

(** [{ $set: { publicKeyHex, registeredAt } }] *)
Definition set_key (publicKeyHex : Js.value) (now : string) (u : UserDoc.t)
  : UserDoc.t :=
  UserDoc.mk (UserDoc.userId u) publicKeyHex (Js.Str now)
             (UserDoc.balance u) (UserDoc.balanceHistory u).

(** [updateOne({ userId }, { $set: ... }, { upsert: true })]: the first
    matching document is updated; when there is none, a document made of
    the filter's [userId] and the [$set] fields is inserted. *)
Definition upsert_key (userId publicKeyHex : Js.value) (now : string)
           (users : list UserDoc.t) : list UserDoc.t :=
  match findOne_user userId users with
  | Some _ => updateOne_user userId (set_key publicKeyHex now) users
  | None =>
      insertOne (UserDoc.mk userId publicKeyHex (Js.Str now) None None) users
  end.

(** The handler. *)
Definition register_key (db : Db.t) (userId publicKeyHex : Js.value)
           (now : string) : Db.t * KeyResponse :=
  if negb (Js.truthy userId) || negb (Js.truthy publicKeyHex)
  then (db, KeyInvalidBody)
  else (Db.mk (Db.vouchers db)
              (upsert_key userId publicKeyHex now (Db.users db)),
        KeyOk).

(* ------------------------------------------------------------------ *)
(** ** Sums of amounts: [list.reduce((sum, v) => sum + v.amount, 0)] *)

Module Total.

(** What the accumulator of the reduction can be: a number, NaN, or a
    string once a string has been met. *)
Inductive t : Type :=
| Number (z : Z)
| NaN
| Text (s : string).

(** ToString of a member value. *)
Definition value_to_string (x : Js.value) : string :=
  match x with
  | Js.Undefined => "undefined"
  | Js.Null => "null"
  | Js.Bool true => "true"
  | Js.Bool false => "false"
  | Js.Num z => JSON.number_to_string z
  | Js.Str s => s
  end.




End Total.

(* ------------------------------------------------------------------ *)
(** ** GET /api/merchant/:id/summary *)




(* ------------------------------------------------------------------ *)
(** ** GET /: the figures of the dashboard *)




(* ------------------------------------------------------------------ *)
(** ** auth.js: the token middlewares *)

(** The decoded payload of a token ([req.user]). *)
Module Token.
Record t : Type := mk {
  userId : Js.value;
  merchantId : Js.value;
  phone : Js.value;
  role : Js.value
}.
End Token.

Inductive AuthResult : Type :=
| Unauthorized (error : string)        (* 401 *)
| Next (user : Token.t).               (* [req.user = decoded; next()] *)

Section Auth.

(** [jwt.verify(token, JWT_SECRET)]; [None] when it throws. *)
Variable jwt_verify : string -> option Token.t.

(** [verifyToken]: the decoded payload, or [null] when verifying throws. *)
Definition verifyToken (token : string) : option Token.t :=
  match jwt_verify token with
  | Some decoded => Some decoded
  | None => None
  end.

(** [authHeader.substring(7)] *)
Definition after_bearer (authHeader : string) : string :=
  String.substring 7 (String.length authHeader - 7) authHeader.

(** [!authHeader || !authHeader.startsWith('Bearer ')] *)
Definition no_bearer (authorization : option string) : bool :=
  match authorization with
  | None => true
  | Some authHeader =>
      (authHeader =? EmptyString)%string
      || negb (String.prefix "Bearer " authHeader)
  end.

(** [authMiddleware]; [authorization] is [req.headers.authorization],
    [None] when the header is absent. *)
Definition authMiddleware (authorization : option string) : AuthResult :=
  if no_bearer authorization then Unauthorized "No token provided"
  else
    match authorization with
    | None => Unauthorized "No token provided"
    | Some authHeader =>
        match verifyToken (after_bearer authHeader) with
        | None => Unauthorized "Invalid or expired token"
        | Some decoded => Next decoded
        end
    end.

(** [optionalAuthMiddleware]: always calls [next()]; the result is
    [req.user], [None] when it was not set. *)
Definition optionalAuthMiddleware (authorization : option string)
  : option Token.t :=
  match authorization with
  | None => None
  | Some authHeader =>
      if negb (authHeader =? EmptyString)%string
         && String.prefix "Bearer " authHeader
      then verifyToken (after_bearer authHeader)
      else None
  end.

(** [app.post("/api/balance/add", authMiddleware, handler)] *)
Definition api_balance_add (db : Db.t) (authorization : option string)
           (amount : Js.value) (now : string) : Db.t * BalanceResponse :=
  match authMiddleware authorization with
  | Unauthorized error => (db, Error 401 error)
  | Next user => balance_add db (Token.userId user) amount now
  end.

(** [app.post("/api/balance/deduct", authMiddleware, handler)] *)
Definition api_balance_deduct (db : Db.t) (authorization : option string)
           (amount merchantId voucherId : Js.value) (now : string)
  : Db.t * BalanceResponse :=
  match authMiddleware authorization with
  | Unauthorized error => (db, Error 401 error)
  | Next user =>
      balance_deduct db (Token.userId user) amount merchantId voucherId now
  end.

(** [app.get("/api/balance", authMiddleware, handler)], restricted to
    the status and the [balance] member of the answer. *)
Definition api_balance_get (db : Db.t) (authorization : option string)
  : BalanceResponse + Z :=
  match authMiddleware authorization with
  | Unauthorized error => inl (Error 401 error)
  | Next user =>
      match findOne_user (Token.userId user) (Db.users db) with
      | None => inl (Error 404 "User not found")
      | Some u => inr (balance_or_0 u)
      end
  end.

End Auth.

(* ------------------------------------------------------------------ *)
(** ** GET /api/transactions/merchant *)

Module Transaction.
Record t : Type := mk {
  id : Js.value;
  type : string;
  category : string;
  amount : Js.value;
  description : string;
  payerId : Js.value;
  payerName : Js.value;
  timestamp : Js.value;
  status : string
}.
End Transaction.





Section MerchantTransactions.

(** [.sort({ createdAt: -1 })] of the driver: some reordering of the
    documents found. *)
Variable sort_createdAt_desc : list VoucherDoc.t -> list VoucherDoc.t.


End MerchantTransactions.

(* ------------------------------------------------------------------ *)
(** ** GET /api/transactions/user *)

(** An element of the user's transaction list; [balance], [merchantId]
    and [status] are [None] where the object literal has no such
    member. *)
Module UserTx.
Record t : Type := mk {
  id : Js.value;
  type : string;
  category : string;
  amount : Js.value;
  description : string;
  timestamp : Js.value;
  balance : option Z;
  merchantId : option Js.value;
  status : option string
}.
End UserTx.

(** The object pushed for a balance history entry [h]. *)
Definition balance_tx (h : History.t) : UserTx.t :=
  let is_add := (History.type h =? "add")%string in
  UserTx.mk (Js.Str ("bal_" ++ History.timestamp h))
            (if is_add then "credit" else "debit")
            (if is_add then "wallet_load" else "payment")
            (Js.Num (History.amount h))
            (if is_add then "Added to wallet" else "Payment sent")
            (Js.Str (History.timestamp h))
            (Some (History.newBalance h)) None None.

(** The object pushed for a payment [p]; a voucher document has no
    [merchantName]. *)
Definition payment_tx (p : VoucherDoc.t) : UserTx.t :=
  UserTx.mk (VoucherDoc.voucherId p) "debit" "payment"
            (VoucherDoc.amount p)
            ("Paid to " ++ Total.value_to_string (VoucherDoc.merchantId p))
            (VoucherDoc.createdAt p) None
            (Some (VoucherDoc.merchantId p)) (Some (VoucherDoc.status p)).

(** [vouchers.find({ payerId: userId })].  No voucher document has a
    [payerId]; a filter on a missing field matches when its value is
    null or undefined and never otherwise. *)
Definition find_by_payer (userId : Js.value) (c : list VoucherDoc.t)
  : list VoucherDoc.t :=
  match userId with
  | Js.Undefined | Js.Null => c
  | _ => []
  end.

Section UserTransactions.

(** [.sort({ createdAt: -1 })] of the driver and
    [transactions.sort(...)]: reorderings of their input. *)
Variable sort_createdAt_desc : list VoucherDoc.t -> list VoucherDoc.t.
Variable sort_newest_first : list UserTx.t -> list UserTx.t.

(** The handler, after [authMiddleware]; the answer is the 404 error or
    the transactions with their count. *)
Definition user_transactions (db : Db.t) (user : Token.t)
  : BalanceResponse + (list UserTx.t * Z) :=
  let userId := Token.userId user in
  match findOne_user userId (Db.users db) with
  | None => inl (Error 404 "User not found")
  | Some u =>
      let payments :=
        sort_createdAt_desc (find_by_payer userId (Db.vouchers db)) in
      let transactions :=
        (map balance_tx (history_of u) ++ map payment_tx payments)%list in
      let sorted := sort_newest_first transactions in
      inr (sorted, Z.of_nat (List.length sorted))
  end.

End UserTransactions.

(* ------------------------------------------------------------------ *)
(** ** Requests of the modelled endpoints, one after another *)

Inductive ApiRequest : Type :=
| ReqSync (req : SyncRequest)
| ReqRegisterKey (userId publicKeyHex : Js.value) (now : string)
| ReqBalanceAdd (authorization : option string) (amount : Js.value)
                (now : string)
| ReqBalanceDeduct (authorization : option string)
                   (amount merchantId voucherId : Js.value) (now : string).

Section Api.

Variable sha256_hex : string -> string.
Variable Key : Type.
Variable keyFromPublic : Js.value -> option Key.
Variable key_verify : Key -> string -> Js.value -> option bool.
Variable jwt_verify : string -> option Token.t.

(** The database after one request. *)
Definition api_step (db : Db.t) (r : ApiRequest) : Db.t :=
  match r with
  | ReqSync req => fst (sync sha256_hex Key keyFromPublic key_verify db req)
  | ReqRegisterKey userId publicKeyHex now =>
      fst (register_key db userId publicKeyHex now)
  | ReqBalanceAdd authorization amount now =>
      fst (api_balance_add jwt_verify db authorization amount now)
  | ReqBalanceDeduct authorization amount merchantId voucherId now =>
      fst (api_balance_deduct jwt_verify db authorization amount merchantId
                              voucherId now)
  end.

Definition api_run (db : Db.t) (rs : list ApiRequest) : Db.t :=
  fold_left api_step rs db.

End Api.

(* ------------------------------------------------------------------ *)
(** ** Predicates on stored data *)

(** What every document written by the sync handler looks like. *)
Definition doc_ok (d : VoucherDoc.t) : Prop :=
  VoucherDoc.status d = "synced"
  /\ Js.truthy (VoucherDoc.voucherId d) = true
  /\ Js.truthy (VoucherDoc.merchantId d) = true
  /\ Js.is_number (VoucherDoc.amount d) = true
  /\ Js.truthy (VoucherDoc.issuedTo d) = true
  /\ Js.truthy (VoucherDoc.signature d) = true.

Definition ledger_ok (db : Db.t) : Prop := Forall doc_ok (Db.vouchers db).

Definition voucher_ids (db : Db.t) : list Js.value :=
  map VoucherDoc.voucherId (Db.vouchers db).

Definition user_ids (db : Db.t) : list Js.value :=
  map UserDoc.userId (Db.users db).


(** The balance movement a history entry records. *)
Definition movement (h : History.t) : Z :=
  if (History.type h =? "add")%string then History.amount h
  else - History.amount h.

(** A run of history entries that starts at balance [b]: each entry
    starts where its predecessor ended and ends at its start plus its
    movement. *)
Fixpoint chained (b : Z) (l : list History.t) : Prop :=
  match l with
  | [] => True
  | h :: rest =>
      History.previousBalance h = b
      /\ History.newBalance h = b + movement h
      /\ 0 < History.amount h
      /\ chained (History.newBalance h) rest
  end.

(** The balance a chained run ends at. *)
Definition end_balance (b : Z) (l : list History.t) : Z :=
  fold_left (fun acc h => acc + movement h) l b.

Fixpoint successes (resps : list BalanceResponse) : nat :=
  match resps with
  | [] => 0
  | r :: rest => ((if is_success r then 1 else 0) + successes rest)%nat
  end.

(** The vouchers of a trace that were accepted, in input order. *)
Definition accepted_of (tr : list (Voucher.t * Outcome)) : list Voucher.t :=
  flat_map (fun p => match snd p with
                     | Synced => [fst p]
                     | Reject _ => []
                     end) tr.


(** The balance of an identity, 0 when it has no document. *)
Definition balance_view (db : Db.t) (userId : Js.value) : Z :=
  match balance_of db userId with
  | Some b => b
  | None => 0
  end.

(** User identifiers are unique and truthy. *)
Definition users_ok (db : Db.t) : Prop :=
  NoDup (user_ids db)
  /\ Forall (fun id => Js.truthy id = true) (user_ids db).

(** [users'] holds what [users] holds, plus possibly new documents
    without balance and history. *)
Definition users_extend (users users' : list UserDoc.t) : Prop :=
  forall id,
    match findOne_user id users' with
    | Some u' =>
        findOne_user id users = Some u'
        \/ (findOne_user id users = None
            /\ UserDoc.balance u' = None
            /\ UserDoc.balanceHistory u' = None)
    | None => findOne_user id users = None
    end.


(** Every voucher of a batch carries its public key inline. *)
Definition all_inline (vs : list Voucher.t) : Prop :=
  Forall (fun v => Js.truthy (Voucher.publicKeyHex v) = true) vs.

(* ------------------------------------------------------------------ *)
(** ** More concrete data: tokens, keys and request sequences *)

Module Scenario2.

Import Scenario.

(** A stand-in for the token verifier: the token [jwt:x] decodes to the
    user [x]; anything else is refused. *)
Definition jwt_verify (token : string) : option Token.t :=
  if String.prefix "jwt:" token
  then Some (Token.mk (Js.Str (String.substring 4 (String.length token - 4)
                                                token))
                      Js.Undefined Js.Undefined (Js.Str "user"))
  else None.

Definition alice_header : option string := Some "Bearer jwt:user_1".
Definition forged_header : option string := Some "Bearer forged".
Definition basic_header : option string := Some "Basic dXNlcjpwdw==".

Definition alice_token : Token.t :=
  Token.mk (Js.Str "user_1") Js.Undefined Js.Undefined (Js.Str "user").


(** A second wallet beside [alice]. *)
Definition bob : UserDoc.t :=
  UserDoc.mk (Js.Str "user_2") Js.Null Js.Undefined (Some 40) None.

Definition two_wallets : Db.t := Db.mk [] [alice; bob].



(** Requests of all four kinds. *)
Definition requests : list ApiRequest :=
  [ ReqSync batch_mixed;
    ReqRegisterKey (Js.Str "u9") (Js.Str "04cc") "t2";
    ReqBalanceAdd alice_header (Js.Num 500) "t3";
    ReqSync batch_v1_by_M2;
    ReqRegisterKey (Js.Str "u1") (Js.Str "04dd") "t4";
    ReqBalanceDeduct alice_header (Js.Num 20) M1 (Js.Str "v1") "t5" ].

Definition api_run :=
  api_run Demo.sha256_hex Demo.Key Demo.keyFromPublic Demo.key_verify
          jwt_verify.

(** A batch whose vouchers all carry their key inline. *)
Definition inline_batch : list Voucher.t :=
  [v1; v_invalid_signature; v2; v1_tampered].

Definition batch_inline : SyncRequest := batch M1 inline_batch "t1".

End Scenario2.

(* ================================================================== *)
(** * Properties *)

(** ** Values *)

Lemma strict_eq_true (x y : Js.value) :
  Js.strict_eq x y = true <-> x = y.
Proof.
  destruct x, y; simpl; split; intro H;
    try discriminate; try reflexivity; try congruence.
  - apply Bool.eqb_prop in H. congruence.
  - injection H as ->. apply Bool.eqb_reflx.
  - apply Z.eqb_eq in H. congruence.
  - injection H as ->. apply Z.eqb_refl.
  - apply String.eqb_eq in H. congruence.
  - injection H as ->. apply String.eqb_refl.
Qed.

Lemma strict_eq_refl (x : Js.value) : Js.strict_eq x x = true.
Proof. apply strict_eq_true. reflexivity. Qed.

Lemma strict_eq_false (x y : Js.value) :
  Js.strict_eq x y = false <-> x <> y.
Proof.
  split.
  - intros H E. apply strict_eq_true in E. congruence.
  - intro H. destruct (Js.strict_eq x y) eqn:E; [|reflexivity].
    apply strict_eq_true in E. contradiction.
Qed.

(** ** The payload text read back *)

















(** ** One voucher *)

Section SettlementFacts.

Variable sha256_hex : string -> string.
Variable Key : Type.
Variable keyFromPublic : Js.value -> option Key.
Variable key_verify : Key -> string -> Js.value -> option bool.

Local Abbreviation process :=
  (process_voucher sha256_hex Key keyFromPublic key_verify).
Local Abbreviation loop :=
  (sync_loop sha256_hex Key keyFromPublic key_verify).
Local Abbreviation reason_of :=
  (check_reason sha256_hex Key keyFromPublic key_verify).
Local Abbreviation first_fail :=
  (first_failure sha256_hex Key keyFromPublic key_verify).
Local Abbreviation trace :=
  (sync_trace sha256_hex Key keyFromPublic key_verify).
Local Abbreviation verify := (try_verify Key keyFromPublic key_verify).
Local Abbreviation digest := (msgHashHex sha256_hex).

(** The handler's chain of early exits computes the first failing
    check of [check_order]. *)
Lemma process_voucher_first_failure merchantId now db v :
  process merchantId now db v =
  match first_fail merchantId db v check_order with
  | Some r => (db, Reject r)
  | None => (commit_voucher merchantId now db v, Synced)
  end.
Proof.
  unfold process_voucher, check_order, checks_before_duplicate,
    commit_voucher.
  cbn [app first_failure check_reason].
  destruct (Js.truthy (Voucher.voucherId v)); cbn [negb orb andb];
    [|reflexivity].
  destruct (Js.truthy (Voucher.merchantId v)); cbn [negb orb andb];
    [|reflexivity].
  destruct (Js.is_number (Voucher.amount v)); cbn [negb orb andb];
    [|reflexivity].
  destruct (Js.truthy (Voucher.signature v)); cbn [negb orb andb];
    [|reflexivity].
  destruct (Js.strict_eq (Voucher.merchantId v) merchantId);
    cbn [negb]; [|reflexivity].
  destruct (Js.truthy (Voucher.issuedTo v)); cbn [negb]; [|reflexivity].
  destruct (Js.truthy (userPubHex db v)); cbn [negb]; [|reflexivity].
  destruct (verify (userPubHex db v) (digest v) (Voucher.signature v))
    as [[|]|]; try reflexivity.
  destruct (findOne_voucher (Voucher.voucherId v) (Db.vouchers db));
    reflexivity.
Qed.

Lemma first_failure_app merchantId db v cs1 cs2 :
  first_fail merchantId db v (cs1 ++ cs2)%list =
  match first_fail merchantId db v cs1 with
  | Some r => Some r
  | None => first_fail merchantId db v cs2
  end.
Proof.
  induction cs1 as [|c cs1 IH]; cbn [app first_failure]; [reflexivity|].
  destruct (reason_of merchantId db v c); [reflexivity|exact IH].
Qed.

(** A rejection leaves the database as it was. *)
Lemma process_voucher_reject merchantId now db v db' r :
  process merchantId now db v = (db', Reject r) -> db' = db.
Proof.
  rewrite process_voucher_first_failure.
  destruct (first_fail merchantId db v check_order); congruence.
Qed.

(** An acceptance means every check passed, and the database is the
    committed one. *)
Lemma process_voucher_synced merchantId now db v db' :
  process merchantId now db v = (db', Synced) ->
  first_fail merchantId db v check_order = None /\
  db' = commit_voucher merchantId now db v.
Proof.
  rewrite process_voucher_first_failure.
  destruct (first_fail merchantId db v check_order);
    [discriminate|]. intro H. split; congruence.
Qed.

(** No reason of the five earlier checks is the duplicate reason. *)
Lemma early_reason_not_duplicate merchantId db v r :
  first_fail merchantId db v checks_before_duplicate = Some r ->
  r <> "Duplicate voucherId".
Proof.
  unfold checks_before_duplicate. cbn [first_failure check_reason].
  repeat match goal with
         | |- context [if ?b then _ else _] => destruct b
         | |- context [match verify ?a ?b ?c with _ => _ end] =>
             destruct (verify a b c) as [[|]|]
         end; intro H; inversion H; discriminate.
Qed.

(** A voucher whose identifier is already in the ledger is never
    accepted, and the ledger stays as it is. *)
Lemma process_voucher_stored merchantId now db v d :
  findOne_voucher (Voucher.voucherId v) (Db.vouchers db) = Some d ->
  exists r, process merchantId now db v = (db, Reject r) /\
            r = match first_fail merchantId db v checks_before_duplicate with
                | Some r' => r'
                | None => "Duplicate voucherId"
                end.
Proof.
  intro Hd. rewrite process_voucher_first_failure.
  unfold check_order. rewrite first_failure_app.
  destruct (first_fail merchantId db v checks_before_duplicate) as [r|].
  - exists r. split; reflexivity.
  - cbn [first_failure check_reason]. rewrite Hd.
    eexists. split; reflexivity.
Qed.

(** ** One batch *)

Lemma sync_loop_acc merchantId now vs : forall db syncedIds rejected,
  loop merchantId now db syncedIds rejected vs =
  let '(db', s, r) := loop merchantId now db [] [] vs in
  (db', (syncedIds ++ s)%list, (rejected ++ r)%list).
Proof.
  induction vs as [|v rest IH]; intros db syncedIds rejected.
  - cbn. now rewrite !app_nil_r.
  - cbn [sync_loop].
    destruct (process merchantId now db v) as [db1 [|reason]].
    + rewrite (IH db1 (syncedIds ++ _)%list rejected).
      rewrite (IH db1 ([] ++ _)%list []).
      destruct (loop merchantId now db1 [] [] rest) as [[db2 s] r].
      cbn. now rewrite <- app_assoc.
    + rewrite (IH db1 syncedIds (rejected ++ _)%list).
      rewrite (IH db1 [] ([] ++ _)%list).
      destruct (loop merchantId now db1 [] [] rest) as [[db2 s] r].
      cbn. now rewrite <- app_assoc.
Qed.

Lemma db_after_cons merchantId now db v rest :
  db_after sha256_hex Key keyFromPublic key_verify merchantId now db
           (v :: rest) =
  db_after sha256_hex Key keyFromPublic key_verify merchantId now
           (fst (process merchantId now db v)) rest.
Proof.
  unfold db_after. cbn [sync_loop].
  destruct (process merchantId now db v) as [db1 [|reason]]; cbn [fst];
    rewrite sync_loop_acc;
    destruct (loop merchantId now db1 [] [] rest) as [[db2 s] r];
    reflexivity.
Qed.

Local Abbreviation after :=
  (db_after sha256_hex Key keyFromPublic key_verify).

(** The loop returns what the trace of outcomes says. *)
Lemma sync_loop_trace merchantId now vs : forall db,
  loop merchantId now db [] [] vs =
  (after merchantId now db vs,
   synced_of (trace merchantId now db vs),
   rejected_of (trace merchantId now db vs)).
Proof.
  induction vs as [|v rest IH]; intro db; [reflexivity|].
  rewrite db_after_cons. cbn [sync_loop sync_trace].
  destruct (process merchantId now db v) as [db1 [|reason]]; cbn [fst];
    rewrite sync_loop_acc, (IH db1); reflexivity.
Qed.








(** The ledger only grows along a batch: nothing stored is removed. *)
Lemma db_after_extends merchantId now vs : forall db,
  exists added,
    Db.vouchers (after merchantId now db vs) =
    (Db.vouchers db ++ added)%list.
Proof.
  induction vs as [|v rest IH]; intro db.
  - exists []. cbn. now rewrite app_nil_r.
  - rewrite db_after_cons, process_voucher_first_failure.
    destruct (first_fail merchantId db v check_order); cbn [fst].
    + apply IH.
    + destruct (IH (commit_voucher merchantId now db v)) as [added E].
      exists (stored_doc merchantId now v :: added).
      rewrite E. unfold commit_voucher, insertOne. cbn [Db.vouchers].
      now rewrite <- app_assoc.
Qed.


(** ** The ledger across batches *)

Lemma count_id_insert id d c :
  count_id id (insertOne d c) =
  (count_id id c +
   (if Js.strict_eq (VoucherDoc.voucherId d) id then 1 else 0))%nat.
Proof.
  unfold count_id, insertOne. rewrite filter_app, length_app.
  cbn [filter]. destruct (Js.strict_eq (VoucherDoc.voucherId d) id);
    reflexivity.
Qed.

Lemma findOne_voucher_none id c :
  findOne_voucher id c = None <-> count_id id c = 0%nat.
Proof.
  unfold findOne_voucher, count_id.
  induction c as [|d c IH]; cbn [find filter]; [tauto|].
  destruct (Js.strict_eq (VoucherDoc.voucherId d) id).
  - cbn [List.length]. split; intro H; discriminate.
  - exact IH.
Qed.

Lemma first_failure_none_not_stored merchantId db v :
  first_fail merchantId db v check_order = None ->
  findOne_voucher (Voucher.voucherId v) (Db.vouchers db) = None.
Proof.
  unfold check_order. rewrite first_failure_app.
  destruct (first_fail merchantId db v checks_before_duplicate);
    [discriminate|].
  cbn [first_failure check_reason].
  destruct (findOne_voucher (Voucher.voucherId v) (Db.vouchers db));
    [discriminate|reflexivity].
Qed.

Lemma commit_voucher_count id merchantId now db v :
  count_id id (Db.vouchers (commit_voucher merchantId now db v)) =
  (count_id id (Db.vouchers db) +
   (if Js.strict_eq (Voucher.voucherId v) id then 1 else 0))%nat.
Proof. unfold commit_voucher. cbn [Db.vouchers]. apply count_id_insert. Qed.

Lemma commit_voucher_length merchantId now db v :
  List.length (Db.vouchers (commit_voucher merchantId now db v)) =
  S (List.length (Db.vouchers db)).
Proof.
  unfold commit_voucher, insertOne. cbn [Db.vouchers].
  rewrite length_app. cbn [List.length]. lia.
Qed.

Lemma synced_of_cons v o tr :
  synced_of ((v, o) :: tr) =
  match o with
  | Synced => Voucher.voucherId v :: synced_of tr
  | Reject _ => synced_of tr
  end.
Proof. destruct o; reflexivity. Qed.

Lemma count_synced_cons id x ids :
  count_synced id (x :: ids) =
  ((if Js.strict_eq x id then 1 else 0) + count_synced id ids)%nat.
Proof.
  unfold count_synced. cbn [filter].
  destruct (Js.strict_eq x id); reflexivity.
Qed.

(** Counting one identifier along a batch. *)
Lemma batch_count id merchantId now vs : forall db,
  let tr := trace merchantId now db vs in
  let db' := after merchantId now db vs in
  count_id id (Db.vouchers db') =
    (count_id id (Db.vouchers db) + count_synced id (synced_of tr))%nat
  /\ (count_synced id (synced_of tr) <= 1)%nat
  /\ ((0 < count_id id (Db.vouchers db))%nat ->
      count_synced id (synced_of tr) = 0%nat)
  /\ List.length (Db.vouchers db') =
     (List.length (Db.vouchers db) + List.length (synced_of tr))%nat.
Proof.
  induction vs as [|v rest IH]; intro db; cbn zeta.
  - cbn. repeat split; lia.
  - rewrite db_after_cons. cbn [sync_trace].
    destruct (process merchantId now db v) as [db1 [|reason]] eqn:E;
      cbn [fst]; rewrite synced_of_cons.
    + apply process_voucher_synced in E as [Hnone ->].
      apply first_failure_none_not_stored in Hnone.
      specialize (IH (commit_voucher merchantId now db v)).
      cbn zeta in IH. destruct IH as (IH1 & IH2 & IH3 & IH4).
      rewrite commit_voucher_count in IH1, IH3.
      rewrite commit_voucher_length in IH4.
      rewrite count_synced_cons. cbn [List.length].
      destruct (Js.strict_eq (Voucher.voucherId v) id) eqn:Eid.
      * apply strict_eq_true in Eid. rewrite Eid in Hnone.
        apply findOne_voucher_none in Hnone.
        repeat split; lia.
      * repeat split; try lia; intro Hpos; apply IH3; lia.
    + apply process_voucher_reject in E as ->.
      apply (IH db).
Qed.

Local Abbreviation handler :=
  (sync sha256_hex Key keyFromPublic key_verify).
Local Abbreviation handler_all :=
  (sync_all sha256_hex Key keyFromPublic key_verify).

(** The handler in terms of the trace. *)
Lemma sync_unfold db req :
  handler db req =
  if negb (Js.truthy (req_merchantId req)) then (db, InvalidBody)
  else match req_vouchers req with
       | None => (db, InvalidBody)
       | Some vs =>
           let tr := trace (req_merchantId req) (req_now req) db vs in
           let db' := after (req_merchantId req) (req_now req) db vs in
           (db', SyncResult (synced_of tr) (rejected_of tr)
                            (countDocuments (Db.vouchers db')))
       end.
Proof.
  unfold sync.
  destruct (negb (Js.truthy (req_merchantId req))); [reflexivity|].
  destruct (req_vouchers req) as [vs|]; [|reflexivity].
  rewrite sync_loop_trace. reflexivity.
Qed.

Lemma sync_count id db req :
  count_id id (Db.vouchers (fst (handler db req))) =
    (count_id id (Db.vouchers db)
     + count_synced id (synced_ids (snd (handler db req))))%nat
  /\ (count_synced id (synced_ids (snd (handler db req))) <= 1)%nat
  /\ ((0 < count_id id (Db.vouchers db))%nat ->
      count_synced id (synced_ids (snd (handler db req))) = 0%nat)
  /\ List.length (Db.vouchers (fst (handler db req))) =
     (List.length (Db.vouchers db)
      + List.length (synced_ids (snd (handler db req))))%nat.
Proof.
  rewrite sync_unfold.
  destruct (negb (Js.truthy (req_merchantId req))).
  - cbn. repeat split; lia.
  - destruct (req_vouchers req) as [vs|].
    + cbn zeta. cbn [fst snd synced_ids]. apply batch_count.
    + cbn. repeat split; lia.
Qed.

Lemma sync_all_count id reqs : forall db,
  count_id id (Db.vouchers (fst (handler_all db reqs))) =
    (count_id id (Db.vouchers db)
     + admissions id (snd (handler_all db reqs)))%nat
  /\ (admissions id (snd (handler_all db reqs)) <= 1)%nat
  /\ ((0 < count_id id (Db.vouchers db))%nat ->
      admissions id (snd (handler_all db reqs)) = 0%nat)
  /\ List.length (Db.vouchers (fst (handler_all db reqs))) =
     (List.length (Db.vouchers db)
      + total_synced (snd (handler_all db reqs)))%nat.
Proof.
  induction reqs as [|req rest IH]; intro db.
  - cbn. repeat split; lia.
  - cbn [sync_all].
    pose proof (sync_count id db req) as (H1 & H2 & H3 & H4).
    destruct (handler db req) as [db1 resp]. cbn [fst snd] in *.
    specialize (IH db1). destruct IH as (I1 & I2 & I3 & I4).
    destruct (handler_all db1 rest) as [db2 resps]. cbn [fst snd] in *.
    cbn [admissions total_synced].
    assert (count_synced id (synced_ids resp) = 0%nat
            \/ admissions id resps = 0%nat) as Hone.
    { destruct (Nat.eq_dec (count_synced id (synced_ids resp)) 0)
        as [Z|NZ]; [left; exact Z|right; apply I3; lia]. }
    repeat split; try lia.
Qed.

(** ** The key store *)

Lemma findOne_user_insert id u c :
  findOne_user id (insertOne u c) =
  match findOne_user id c with
  | Some u0 => Some u0
  | None => if Js.strict_eq (UserDoc.userId u) id then Some u else None
  end.
Proof.
  unfold findOne_user, insertOne.
  induction c as [|u1 c IH]; cbn [app find]; [reflexivity|].
  destruct (Js.strict_eq (UserDoc.userId u1) id); [reflexivity|exact IH].
Qed.

(** Auto-registration never changes what an existing record answers. *)
Lemma auto_register_keeps now issuedTo pub users id u :
  findOne_user id users = Some u ->
  findOne_user id (auto_register now issuedTo pub users) = Some u.
Proof.
  intro H. unfold auto_register.
  destruct (findOne_user issuedTo users); [exact H|].
  destruct (Js.truthy pub); [|exact H].
  rewrite findOne_user_insert, H. reflexivity.
Qed.


Lemma process_voucher_keeps_user merchantId now db v id u :
  findOne_user id (Db.users db) = Some u ->
  findOne_user id (Db.users (fst (process merchantId now db v))) = Some u.
Proof.
  intro H. rewrite process_voucher_first_failure.
  destruct (first_fail merchantId db v check_order); cbn [fst]; [exact H|].
  unfold commit_voucher. cbn [Db.users].
  now apply auto_register_keeps.
Qed.

Lemma db_after_keeps_user merchantId now id u vs : forall db,
  findOne_user id (Db.users db) = Some u ->
  findOne_user id (Db.users (after merchantId now db vs)) = Some u.
Proof.
  induction vs as [|v rest IH]; intros db H; [exact H|].
  rewrite db_after_cons. apply IH.
  now apply process_voucher_keeps_user.
Qed.

Lemma sync_keeps_user db req id u :
  findOne_user id (Db.users db) = Some u ->
  findOne_user id (Db.users (fst (handler db req))) = Some u.
Proof.
  intro H. rewrite sync_unfold.
  destruct (negb (Js.truthy (req_merchantId req))); [exact H|].
  destruct (req_vouchers req) as [vs|]; [|exact H].
  cbn zeta. cbn [fst]. now apply db_after_keeps_user.
Qed.

Lemma sync_all_keeps_user id u reqs : forall db,
  findOne_user id (Db.users db) = Some u ->
  findOne_user id (Db.users (fst (handler_all db reqs))) = Some u.
Proof.
  induction reqs as [|req rest IH]; intros db H; [exact H|].
  cbn [sync_all].
  pose proof (sync_keeps_user db req id u H) as H1.
  destruct (handler db req) as [db1 resp]. cbn [fst] in H1.
  specialize (IH db1 H1).
  destruct (handler_all db1 rest) as [db2 resps]. exact IH.
Qed.



(** ** Settlement claims *)

(** C10. The per-voucher checks run in the fixed order format, merchant
    match, issuedTo, public key, signature, duplicate; the reported
    reason is that of the first failing check, so a voucher failing one
    of the first five checks gets that reason and never the duplicate
    reason, whatever the ledger holds. *)
Theorem C10_first_failing_check merchantId now db v :
  check_order = [CheckFormat; CheckMerchant; CheckIssuedTo;
                 CheckPublicKey; CheckSignature; CheckDuplicate]
  /\ process merchantId now db v =
     match first_fail merchantId db v check_order with
     | Some r => (db, Reject r)
     | None => (commit_voucher merchantId now db v, Synced)
     end
  /\ (forall r,
        first_fail merchantId db v checks_before_duplicate = Some r ->
        process merchantId now db v = (db, Reject r)
        /\ r <> "Duplicate voucherId").
Proof.
  split; [reflexivity|]. split; [apply process_voucher_first_failure|].
  intros r Hr. split.
  - rewrite process_voucher_first_failure. unfold check_order.
    rewrite first_failure_app, Hr. reflexivity.
  - eapply early_reason_not_duplicate; eassumption.
Qed.


(** C1 (as amended). Across any sequence of sync requests a voucher
    identifier is reported as synced at most once, and not at all when
    the ledger already holds it; the ledger gains exactly one document
    per reported identifier.  The first submission passing every check
    is inserted; a submission whose identifier is already stored is
    rejected and leaves the database unchanged, with the reason
    "Duplicate voucherId" when it passes the five earlier checks and
    with the reason of the first failing earlier check otherwise. *)
Theorem C1_single_admission db reqs id :
  (admissions id (snd (handler_all db reqs)) <= 1)%nat
  /\ ((0 < count_id id (Db.vouchers db))%nat ->
      admissions id (snd (handler_all db reqs)) = 0%nat)
  /\ count_id id (Db.vouchers (fst (handler_all db reqs))) =
     (count_id id (Db.vouchers db)
      + admissions id (snd (handler_all db reqs)))%nat
  /\ List.length (Db.vouchers (fst (handler_all db reqs))) =
     (List.length (Db.vouchers db)
      + total_synced (snd (handler_all db reqs)))%nat
  /\ (forall merchantId now v,
        Voucher.voucherId v = id ->
        (first_fail merchantId db v check_order = None ->
         process merchantId now db v =
           (commit_voucher merchantId now db v, Synced)
         /\ count_id id (Db.vouchers (commit_voucher merchantId now db v))
            = 1%nat)
        /\ (forall d,
              findOne_voucher id (Db.vouchers db) = Some d ->
              exists r,
                process merchantId now db v = (db, Reject r)
                /\ (first_fail merchantId db v checks_before_duplicate
                      = None -> r = "Duplicate voucherId")
                /\ (forall r',
                      first_fail merchantId db v checks_before_duplicate
                        = Some r' -> r = r'))).
Proof.
  pose proof (sync_all_count id reqs db) as (H1 & H2 & H3 & H4).
  split; [exact H2|]. split; [exact H3|]. split; [exact H1|].
  split; [exact H4|].
  intros merchantId now v Hid. split.
  - intro Hnone. split.
    + rewrite process_voucher_first_failure, Hnone. reflexivity.
    + rewrite commit_voucher_count, Hid, strict_eq_refl.
      apply first_failure_none_not_stored in Hnone.
      rewrite Hid in Hnone. apply findOne_voucher_none in Hnone. lia.
  - intros d Hd. rewrite <- Hid in Hd.
    destruct (process_voucher_stored merchantId now db v d Hd)
      as (r & Hp & Hr).
    exists r. split; [exact Hp|]. split.
    + intro Hn. now rewrite Hn in Hr.
    + intros r' Hs. now rewrite Hs in Hr.
Qed.

Lemma first_failure_before_signature merchantId db v :
  first_fail merchantId db v checks_before_duplicate =
  match first_fail merchantId db v checks_before_signature with
  | Some r => Some r
  | None => reason_of merchantId db v CheckSignature
  end.
Proof.
  change checks_before_duplicate
    with (checks_before_signature ++ [CheckSignature])%list.
  rewrite first_failure_app. cbn [first_failure].
  destruct (reason_of merchantId db v CheckSignature); reflexivity.
Qed.

(** C5 (as amended). A voucher that reaches signature verification
    and does not verify is rejected with one of exactly two reasons:
    "Signature verify error" when parsing the key or verifying throws,
    "Bad signature" when verification answers false.  The database is
    unchanged and the loop goes on with the rest of the batch. *)
Theorem C5_two_signature_reasons merchantId now db v syncedIds rejected
        rest :
  first_fail merchantId db v checks_before_signature = None ->
  verify (userPubHex db v) (digest v) (Voucher.signature v) <> Some true ->
  exists r,
    process merchantId now db v = (db, Reject r)
    /\ (r = "Bad signature" \/ r = "Signature verify error")
    /\ (keyFromPublic (userPubHex db v) = None ->
        r = "Signature verify error")
    /\ (forall key,
          keyFromPublic (userPubHex db v) = Some key ->
          key_verify key (digest v) (Voucher.signature v) = None ->
          r = "Signature verify error")
    /\ (forall key,
          keyFromPublic (userPubHex db v) = Some key ->
          key_verify key (digest v) (Voucher.signature v) = Some false ->
          r = "Bad signature")
    /\ loop merchantId now db syncedIds rejected (v :: rest) =
       loop merchantId now db syncedIds
            (rejected ++ [Rejected.mk (Voucher.voucherId v) r])%list rest.
Proof.
  intros Hpre Hver.
  assert (forall r,
            reason_of merchantId db v CheckSignature = Some r ->
            process merchantId now db v = (db, Reject r)) as Hproc.
  { intros r Hr. rewrite process_voucher_first_failure. unfold check_order.
    rewrite first_failure_app, first_failure_before_signature, Hpre, Hr.
    reflexivity. }
  cbn [check_reason] in Hproc. cbn [sync_loop].
  unfold try_verify in *.
  destruct (keyFromPublic (userPubHex db v)) as [key|] eqn:Ek.
  - destruct (key_verify key (digest v) (Voucher.signature v))
      as [[|]|] eqn:Ev.
    + congruence.
    + exists "Bad signature". rewrite (Hproc _ eq_refl).
      repeat split; try (left; reflexivity); try discriminate;
        intros key' Hk; injection Hk as <-; congruence.
    + exists "Signature verify error". rewrite (Hproc _ eq_refl).
      repeat split; try (right; reflexivity); try discriminate;
        intros key' Hk; injection Hk as <-; congruence.
  - exists "Signature verify error". rewrite (Hproc _ eq_refl).
    repeat split; try (right; reflexivity); discriminate.
Qed.




(** A voucher failing the format, merchant or issuedTo check is
    rejected and nothing is written. *)
Lemma structural_rejection merchantId now db v :
  Js.truthy (Voucher.voucherId v) = false
  \/ Js.truthy (Voucher.merchantId v) = false
  \/ Js.is_number (Voucher.amount v) = false
  \/ Js.truthy (Voucher.signature v) = false
  \/ Voucher.merchantId v <> merchantId
  \/ Js.truthy (Voucher.issuedTo v) = false ->
  exists r, process merchantId now db v = (db, Reject r)
            /\ In r ["Invalid format"; "Wrong merchantId";
                     "Missing issuedTo"].
Proof.
  intro H. unfold process_voucher.
  destruct (Js.truthy (Voucher.voucherId v)); cbn [negb orb];
    [|eexists; split; [reflexivity|cbn; tauto]].
  destruct (Js.truthy (Voucher.merchantId v)); cbn [negb orb];
    [|eexists; split; [reflexivity|cbn; tauto]].
  destruct (Js.is_number (Voucher.amount v)); cbn [negb orb];
    [|eexists; split; [reflexivity|cbn; tauto]].
  destruct (Js.truthy (Voucher.signature v)); cbn [negb orb];
    [|eexists; split; [reflexivity|cbn; tauto]].
  destruct (Js.strict_eq (Voucher.merchantId v) merchantId) eqn:Em;
    cbn [negb]; [|eexists; split; [reflexivity|cbn; tauto]].
  destruct (Js.truthy (Voucher.issuedTo v)); cbn [negb];
    [|eexists; split; [reflexivity|cbn; tauto]].
  apply strict_eq_true in Em.
  destruct H as [H|[H|[H|[H|[H|H]]]]]; try discriminate. contradiction.
Qed.

End SettlementFacts.

(* ------------------------------------------------------------------ *)
(** ** The balance ledger *)

Lemma balance_or_0_set b h u :
  balance_or_0 (set_balance_push_history b h u) = b.
Proof.
  unfold balance_or_0, set_balance_push_history. cbn [UserDoc.balance].
  destruct (b =? 0) eqn:E; [|reflexivity].
  apply Z.eqb_eq in E. congruence.
Qed.

Lemma history_of_set b h u :
  history_of (set_balance_push_history b h u) = (history_of u ++ [h])%list.
Proof.
  unfold history_of, set_balance_push_history.
  cbn [UserDoc.balanceHistory].
  destruct (UserDoc.balanceHistory u); reflexivity.
Qed.

(** [updateOne] rewrites the document [findOne] returns. *)
Lemma findOne_user_updateOne id upd c u :
  (forall x, UserDoc.userId (upd x) = UserDoc.userId x) ->
  findOne_user id c = Some u ->
  findOne_user id (updateOne_user id upd c) = Some (upd u).
Proof.
  intros Hupd. unfold findOne_user.
  induction c as [|x c IH]; cbn [find updateOne_user]; [discriminate|].
  destruct (Js.strict_eq (UserDoc.userId x) id) eqn:E.
  - intro H. injection H as <-. cbn [find]. now rewrite Hupd, E.
  - intro H. cbn [find]. rewrite E. now apply IH.
Qed.

(** Documents of other identities are not touched. *)
Lemma findOne_user_updateOne_other id id' upd c :
  (forall x, UserDoc.userId (upd x) = UserDoc.userId x) ->
  id' <> id ->
  findOne_user id' (updateOne_user id upd c) = findOne_user id' c.
Proof.
  intros Hupd Hne. unfold findOne_user.
  induction c as [|x c IH]; cbn [find updateOne_user]; [reflexivity|].
  destruct (Js.strict_eq (UserDoc.userId x) id) eqn:E; cbn [find].
  - rewrite Hupd. apply strict_eq_true in E.
    destruct (Js.strict_eq (UserDoc.userId x) id') eqn:E'; [|reflexivity].
    apply strict_eq_true in E'. congruence.
  - now rewrite IH.
Qed.

Lemma updateOne_user_length id upd c :
  List.length (updateOne_user id upd c) = List.length c.
Proof.
  induction c as [|x c IH]; cbn [updateOne_user]; [reflexivity|].
  destruct (Js.strict_eq (UserDoc.userId x) id); cbn [List.length];
    [reflexivity|now rewrite IH].
Qed.

Lemma invalid_amount_num z : invalid_amount (Js.Num z) = (z <=? 0).
Proof.
  unfold invalid_amount. cbn.
  destruct (z =? 0) eqn:E; cbn; [|reflexivity].
  apply Z.eqb_eq in E. subst z. reflexivity.
Qed.







(* ------------------------------------------------------------------ *)
(** ** Concrete runs *)

Section Runs.

Import Scenario.

(** The payload text of [v1]. *)
Example payloadStr_example :
  payloadStr v1
  = "{" ++ JSON.quote "voucherId" ++ ":" ++ JSON.quote "v1" ++ ","
        ++ JSON.quote "merchantId" ++ ":" ++ JSON.quote "M1" ++ ","
        ++ JSON.quote "amount" ++ ":50,"
        ++ JSON.quote "createdAt" ++ ":"
        ++ JSON.quote "2024-01-01T10:00:00.000Z" ++ ","
        ++ JSON.quote "issuedTo" ++ ":" ++ JSON.quote "u1" ++ "}".
Proof. reflexivity. Qed.

(** Tampering with the amount changes the payload. *)
Example payloadStr_tampered : payloadStr v1 <> payloadStr v1_tampered.
Proof. intro E. vm_compute in E. discriminate E. Qed.

(** The duplicate-in-one-batch example of the specification. *)
Example sync_v1_twice :
  snd (Demo.sync Demo.empty_db batch_v1_twice) =
  SyncResult [Js.Str "v1"]
             [Rejected.mk (Js.Str "v1") "Duplicate voucherId"] 1.
Proof. reflexivity. Qed.

Example sync_mixed :
  snd (Demo.sync Demo.empty_db batch_mixed) =
  SyncResult [Js.Str "v1"; Js.Str "v2"]
             [Rejected.mk (Js.Str "v4") "Signature verify error";
              Rejected.mk (Js.Str "v1") "Duplicate voucherId";
              Rejected.mk (Js.Str "v3") "Signature verify error"] 2.
Proof. reflexivity. Qed.

(** The stored voucher [v1], resubmitted with a tampered amount, is
    rejected for its signature and not as a duplicate. *)
Lemma C10_tampered_resubmission :
  findOne_voucher (Voucher.voucherId v1_tampered) (Db.vouchers db1) <> None
  /\ Demo.process_voucher M1 "t3" db1 v1_tampered =
     (db1, Reject "Bad signature")
  /\ "Bad signature" <> "Duplicate voucherId".
Proof.
  split; [discriminate|].
  apply (proj2 (proj2 (C10_first_failing_check
                         Demo.sha256_hex Demo.Key Demo.keyFromPublic
                         Demo.key_verify M1 "t3" db1 v1_tampered))).
  reflexivity.
Defined.


(** [v1] is stored; whatever is submitted afterwards, it is not
    reported as synced again. *)
Lemma C1_stored_never_again :
  (0 < count_id (Js.Str "v1") (Db.vouchers db1))%nat
  /\ admissions (Js.Str "v1")
       (snd (Demo.sync_all db1 [batch_v1; batch_v1_by_M2; batch_v1_twice]))
     = 0%nat.
Proof.
  split; [cbn; lia|].
  apply (proj1 (proj2 (C1_single_admission
                         Demo.sha256_hex Demo.Key Demo.keyFromPublic
                         Demo.key_verify db1
                         [batch_v1; batch_v1_by_M2; batch_v1_twice]
                         (Js.Str "v1")))).
  cbn; lia.
Defined.

(** C1, refuted as stated: after [v1] has been stored, the same
    voucher submitted in a batch of merchant M2, and the voucher with a
    tampered amount, are rejected with "Wrong merchantId" and "Bad
    signature", not with "Duplicate voucherId". *)
Lemma C1_later_submission_other_reason :
  snd (Demo.sync_all Demo.empty_db
                     [batch_v1; batch_v1_by_M2; batch_v1_tampered]) =
  [ SyncResult [Js.Str "v1"] [] 1;
    SyncResult [] [Rejected.mk (Js.Str "v1") "Wrong merchantId"] 1;
    SyncResult [] [Rejected.mk (Js.Str "v1") "Bad signature"] 1 ]
  /\ "Wrong merchantId" <> "Duplicate voucherId"
  /\ "Bad signature" <> "Duplicate voucherId".
Proof.
  split; [reflexivity|]. split; discriminate.
Qed.

(** A malformed signature is rejected with the verify-error reason and
    the loop continues. *)
Lemma C5_malformed_signature :
  first_failure Demo.sha256_hex Demo.Key Demo.keyFromPublic Demo.key_verify
                M1 Demo.empty_db v_malformed_signature
                checks_before_signature = None
  /\ try_verify Demo.Key Demo.keyFromPublic Demo.key_verify
                (userPubHex Demo.empty_db v_malformed_signature)
                (msgHashHex Demo.sha256_hex v_malformed_signature)
                (Voucher.signature v_malformed_signature) <> Some true
  /\ exists r,
      Demo.process_voucher M1 "t1" Demo.empty_db v_malformed_signature =
      (Demo.empty_db, Reject r)
      /\ (r = "Bad signature" \/ r = "Signature verify error").
Proof.
  split; [reflexivity|]. split; [discriminate|].
  destruct (C5_two_signature_reasons
              Demo.sha256_hex Demo.Key Demo.keyFromPublic Demo.key_verify
              M1 "t1" Demo.empty_db v_malformed_signature [] [] [v1]
              eq_refl ltac:(discriminate))
    as (r & Hp & Hr & _).
  exists r. split; [exact Hp|exact Hr].
Defined.

(** C5, refuted as stated: an unparseable key and an unparseable
    signature are reported with the same reason, and so are an invalid
    signature and a signature that is valid for another digest. *)
Lemma C5_reasons_coincide :
  (Demo.keyFromPublic (Voucher.publicKeyHex v_bad_key) = None
   /\ snd (Demo.process_voucher M1 "t1" Demo.empty_db v_bad_key) =
      Reject "Signature verify error")
  /\ (Demo.keyFromPublic (Voucher.publicKeyHex v_malformed_signature) =
        Some "04aa"
      /\ Demo.key_verify "04aa"
           (msgHashHex Demo.sha256_hex v_malformed_signature)
           (Voucher.signature v_malformed_signature) = None
      /\ snd (Demo.process_voucher M1 "t1" Demo.empty_db
                                   v_malformed_signature) =
         Reject "Signature verify error")
  /\ (Demo.key_verify "04aa"
        (msgHashHex Demo.sha256_hex v_invalid_signature)
        (Voucher.signature v_invalid_signature) = Some false
      /\ snd (Demo.process_voucher M1 "t1" Demo.empty_db
                                   v_invalid_signature) =
         Reject "Bad signature")
  /\ (Demo.key_verify "04aa" (msgHashHex Demo.sha256_hex v1)
                      (Voucher.signature v1_tampered) = Some true
      /\ Demo.key_verify "04aa" (msgHashHex Demo.sha256_hex v1_tampered)
                         (Voucher.signature v1_tampered) = Some false
      /\ snd (Demo.process_voucher M1 "t1" Demo.empty_db v1_tampered) =
         Reject "Bad signature").
Proof. repeat split; reflexivity. Qed.




(** C4. Properly signed vouchers with amount -50 and 0 pass the format
    check and are stored. *)
Theorem C4_nonpositive_amount_synced :
  Js.le_zero (Voucher.amount v_negative) = true
  /\ Js.le_zero (Voucher.amount v_zero) = true
  /\ snd (Demo.sync Demo.empty_db batch_nonpositive) =
     SyncResult [Js.Str "v7"; Js.Str "v8"] [] 2
  /\ map VoucherDoc.amount
         (Db.vouchers (fst (Demo.sync Demo.empty_db batch_nonpositive))) =
     [Js.Num (-50); Js.Num 0].
Proof. repeat split; reflexivity. Qed.




Example wallet_run_final_balance :
  balance_of (fst (wallet_run (Js.Str "user_1") wallet_db wallet_ops))
             (Js.Str "user_1") = Some 480.
Proof. reflexivity. Qed.

End Runs.

(* ================================================================== *)
(** * Further properties of the handlers *)

(** ** Lists *)

Lemma NoDup_snoc {A : Type} (l : list A) (x : A) :
  NoDup l -> ~ In x l -> NoDup (l ++ [x]).
Proof.
  induction l as [|y l IH]; intros Hl Hx; cbn [app].
  - constructor; [intros []|constructor].
  - inversion Hl as [|? ? Hy Hl']; subst. constructor.
    + rewrite in_app_iff. intros [H|[H|[]]]; [contradiction|].
      subst. apply Hx. now left.
    + apply IH; [exact Hl'|]. intro H. apply Hx. now right.
Qed.

Lemma find_app_some {A : Type} (f : A -> bool) (l1 l2 : list A) (x : A) :
  find f l1 = Some x -> find f (l1 ++ l2) = Some x.
Proof.
  induction l1 as [|y l1 IH]; cbn [find app]; [discriminate|].
  destruct (f y); [trivial|exact IH].
Qed.

Lemma find_app_none {A : Type} (f : A -> bool) (l1 l2 : list A) :
  find f l1 = None -> find f (l1 ++ l2) = find f l2.
Proof.
  induction l1 as [|y l1 IH]; cbn [find app]; [trivial|].
  destruct (f y); [discriminate|exact IH].
Qed.

Lemma findOne_voucher_notin id c :
  findOne_voucher id c = None -> ~ In id (map VoucherDoc.voucherId c).
Proof.
  unfold findOne_voucher. intros H Hin. apply in_map_iff in Hin.
  destruct Hin as (d & Hd & Hin).
  apply (find_none _ _ H) in Hin. rewrite Hd, strict_eq_refl in Hin.
  discriminate.
Qed.

Lemma findOne_user_notin id c :
  findOne_user id c = None -> ~ In id (map UserDoc.userId c).
Proof.
  unfold findOne_user. intros H Hin. apply in_map_iff in Hin.
  destruct Hin as (d & Hd & Hin).
  apply (find_none _ _ H) in Hin. rewrite Hd, strict_eq_refl in Hin.
  discriminate.
Qed.

Lemma updateOne_user_ids id upd c :
  (forall x, UserDoc.userId (upd x) = UserDoc.userId x) ->
  map UserDoc.userId (updateOne_user id upd c) = map UserDoc.userId c.
Proof.
  intro H. induction c as [|x c IH]; cbn [updateOne_user map]; [reflexivity|].
  destruct (Js.strict_eq (UserDoc.userId x) id); cbn [map].
  - now rewrite H.
  - now rewrite IH.
Qed.

(** ** What the balance handlers and register-key leave alone *)

Lemma balance_add_vouchers db userId amount now :
  Db.vouchers (fst (balance_add db userId amount now)) = Db.vouchers db.
Proof.
  unfold balance_add. destruct (invalid_amount amount); [reflexivity|].
  destruct (Js.to_Z amount >? 1000); [reflexivity|].
  destruct (findOne_user userId (Db.users db)); reflexivity.
Qed.

Lemma balance_deduct_vouchers db userId amount merchantId voucherId now :
  Db.vouchers (fst (balance_deduct db userId amount merchantId voucherId now))
  = Db.vouchers db.
Proof.
  unfold balance_deduct. destruct (invalid_amount amount); [reflexivity|].
  destruct (findOne_user userId (Db.users db)); [|reflexivity].
  destruct (balance_or_0 t <? Js.to_Z amount); reflexivity.
Qed.

Lemma balance_add_user_ids db userId amount now :
  user_ids (fst (balance_add db userId amount now)) = user_ids db.
Proof.
  unfold balance_add, user_ids.
  destruct (invalid_amount amount); [reflexivity|].
  destruct (Js.to_Z amount >? 1000); [reflexivity|].
  destruct (findOne_user userId (Db.users db)); [|reflexivity].
  cbn [fst Db.users]. now apply updateOne_user_ids.
Qed.

Lemma balance_deduct_user_ids db userId amount merchantId voucherId now :
  user_ids (fst (balance_deduct db userId amount merchantId voucherId now))
  = user_ids db.
Proof.
  unfold balance_deduct, user_ids.
  destruct (invalid_amount amount); [reflexivity|].
  destruct (findOne_user userId (Db.users db)); [|reflexivity].
  destruct (balance_or_0 t <? Js.to_Z amount); [reflexivity|].
  cbn [fst Db.users]. now apply updateOne_user_ids.
Qed.

Lemma register_key_vouchers db userId publicKeyHex now :
  Db.vouchers (fst (register_key db userId publicKeyHex now)) =
  Db.vouchers db.
Proof.
  unfold register_key.
  destruct (negb (Js.truthy userId) || negb (Js.truthy publicKeyHex));
    reflexivity.
Qed.

(** ** Invariants of the stored data *)

Section StoreInvariants.

Variable sha256_hex : string -> string.
Variable Key : Type.
Variable keyFromPublic : Js.value -> option Key.
Variable key_verify : Key -> string -> Js.value -> option bool.
Variable jwt_verify : string -> option Token.t.

Local Abbreviation process :=
  (process_voucher sha256_hex Key keyFromPublic key_verify).
Local Abbreviation first_fail :=
  (first_failure sha256_hex Key keyFromPublic key_verify).
Local Abbreviation trace :=
  (sync_trace sha256_hex Key keyFromPublic key_verify).
Local Abbreviation after :=
  (db_after sha256_hex Key keyFromPublic key_verify).
Local Abbreviation handler :=
  (sync sha256_hex Key keyFromPublic key_verify).
Local Abbreviation handler_all :=
  (sync_all sha256_hex Key keyFromPublic key_verify).
Local Abbreviation step :=
  (api_step sha256_hex Key keyFromPublic key_verify jwt_verify).
Local Abbreviation run :=
  (api_run sha256_hex Key keyFromPublic key_verify jwt_verify).

(** What passing every check says about the fields of a voucher. *)
Lemma first_failure_none_fields merchantId db v :
  first_fail merchantId db v check_order = None ->
  Js.truthy (Voucher.voucherId v) = true
  /\ Js.truthy (Voucher.merchantId v) = true
  /\ Js.is_number (Voucher.amount v) = true
  /\ Js.truthy (Voucher.signature v) = true
  /\ Voucher.merchantId v = merchantId
  /\ Js.truthy (Voucher.issuedTo v) = true.
Proof.
  unfold check_order, checks_before_duplicate.
  cbn [app first_failure check_reason].
  destruct (Js.truthy (Voucher.voucherId v)); cbn [andb]; [|discriminate].
  destruct (Js.truthy (Voucher.merchantId v)); cbn [andb]; [|discriminate].
  destruct (Js.is_number (Voucher.amount v)); cbn [andb]; [|discriminate].
  destruct (Js.truthy (Voucher.signature v)); cbn [andb]; [|discriminate].
  destruct (Js.strict_eq (Voucher.merchantId v) merchantId) eqn:Em;
    [|discriminate].
  destruct (Js.truthy (Voucher.issuedTo v)); [|discriminate].
  intros _. apply strict_eq_true in Em. repeat split; assumption.
Qed.

(** A property of the database kept by every iteration of the sync loop
    is kept by the handler and by sequences of sync requests. *)
Lemma db_after_invariant (P : Db.t -> Prop) merchantId now :
  (forall db v, P db -> P (fst (process merchantId now db v))) ->
  forall vs db, P db -> P (after merchantId now db vs).
Proof.
  intros Hstep vs. induction vs as [|v rest IH]; intros db Hdb; [exact Hdb|].
  rewrite db_after_cons. apply IH. now apply Hstep.
Qed.

Lemma sync_invariant (P : Db.t -> Prop) :
  (forall merchantId now db v,
      P db -> P (fst (process merchantId now db v))) ->
  forall db req, P db -> P (fst (handler db req)).
Proof.
  intros Hstep db req Hdb. rewrite sync_unfold.
  destruct (negb (Js.truthy (req_merchantId req))); [exact Hdb|].
  destruct (req_vouchers req) as [vs|]; [|exact Hdb].
  cbn zeta. cbn [fst]. apply db_after_invariant; [apply Hstep|exact Hdb].
Qed.

(** A property kept by the loop iteration and by the three other
    writers is kept by every sequence of requests. *)
Lemma api_run_invariant (P : Db.t -> Prop) :
  (forall merchantId now db v,
      P db -> P (fst (process merchantId now db v))) ->
  (forall db userId publicKeyHex now,
      P db -> P (fst (register_key db userId publicKeyHex now))) ->
  (forall db userId amount now,
      P db -> P (fst (balance_add db userId amount now))) ->
  (forall db userId amount merchantId voucherId now,
      P db ->
      P (fst (balance_deduct db userId amount merchantId voucherId now))) ->
  forall rs db, P db -> P (run db rs).
Proof.
  intros Hsync Hkey Hadd Hded rs.
  induction rs as [|r rs IH]; intros db Hdb; [exact Hdb|].
  unfold api_run. cbn [fold_left]. apply IH.
  destruct r as [req|userId pub now|h amount now|h amount m vid now];
    cbn [api_step].
  - now apply sync_invariant.
  - now apply Hkey.
  - unfold api_balance_add.
    destruct (authMiddleware jwt_verify h); [exact Hdb|now apply Hadd].
  - unfold api_balance_deduct.
    destruct (authMiddleware jwt_verify h); [exact Hdb|now apply Hded].
Qed.

Lemma process_voucher_ledger_ok merchantId now db v :
  ledger_ok db -> ledger_ok (fst (process merchantId now db v)).
Proof.
  intro Hok. rewrite process_voucher_first_failure.
  destruct (first_fail merchantId db v check_order) eqn:E; cbn [fst];
    [exact Hok|].
  apply first_failure_none_fields in E
    as (Hid & Hm & Ha & Hs & Heq & Hi).
  unfold ledger_ok, commit_voucher, insertOne. cbn [Db.vouchers].
  apply Forall_app. split; [exact Hok|]. constructor; [|constructor].
  unfold doc_ok, stored_doc. cbn. rewrite <- Heq.
  repeat split; assumption.
Qed.

Lemma api_run_ledger_ok db rs :
  ledger_ok db -> ledger_ok (run db rs).
Proof.
  apply (api_run_invariant ledger_ok).
  - intros. now apply process_voucher_ledger_ok.
  - intros d u k n H. unfold ledger_ok. now rewrite register_key_vouchers.
  - intros d u a n H. unfold ledger_ok. now rewrite balance_add_vouchers.
  - intros d u a m vi n H. unfold ledger_ok.
    now rewrite balance_deduct_vouchers.
Qed.

Lemma process_voucher_ids_unique merchantId now db v :
  NoDup (voucher_ids db) ->
  NoDup (voucher_ids (fst (process merchantId now db v))).
Proof.
  intro Hnd. rewrite process_voucher_first_failure.
  destruct (first_fail merchantId db v check_order) eqn:E; cbn [fst];
    [exact Hnd|].
  apply first_failure_none_not_stored in E.
  unfold voucher_ids, commit_voucher, insertOne. cbn [Db.vouchers].
  rewrite map_app. cbn [map stored_doc VoucherDoc.voucherId].
  apply NoDup_snoc; [exact Hnd|]. now apply findOne_voucher_notin.
Qed.

(** The documents of the ledger all have the shape the sync handler
    writes (status synced, truthy voucherId, merchantId, issuedTo and
    signature, numeric amount), after any sequence of requests. *)
Theorem ledger_ok_kept db rs :
  ledger_ok db -> ledger_ok (run db rs).
Proof. apply api_run_ledger_ok. Qed.

(** No two documents of the ledger share a voucherId, after any
    sequence of requests: the insert of the sync handler never meets the
    unique index on [voucherId]. *)
Theorem voucher_ids_unique_kept db rs :
  NoDup (voucher_ids db) -> NoDup (voucher_ids (run db rs)).
Proof.
  apply (api_run_invariant (fun d => NoDup (voucher_ids d))).
  - intros. now apply process_voucher_ids_unique.
  - intros d u k n H. unfold voucher_ids. now rewrite register_key_vouchers.
  - intros d u a n H. unfold voucher_ids. now rewrite balance_add_vouchers.
  - intros d u a m vi n H. unfold voucher_ids.
    now rewrite balance_deduct_vouchers.
Qed.

Lemma users_ok_insert db vouchers u :
  users_ok db ->
  findOne_user (UserDoc.userId u) (Db.users db) = None ->
  Js.truthy (UserDoc.userId u) = true ->
  users_ok (Db.mk vouchers (insertOne u (Db.users db))).
Proof.
  intros [Hnd Ht] Hnone Hid. unfold users_ok, user_ids, insertOne.
  cbn [Db.users]. rewrite map_app. cbn [map]. split.
  - apply NoDup_snoc; [exact Hnd|]. now apply findOne_user_notin.
  - apply Forall_app. split; [exact Ht|]. now repeat constructor.
Qed.

Lemma process_voucher_users_ok merchantId now db v :
  users_ok db -> users_ok (fst (process merchantId now db v)).
Proof.
  intro Hok. rewrite process_voucher_first_failure.
  destruct (first_fail merchantId db v check_order) eqn:E; cbn [fst];
    [exact Hok|].
  apply first_failure_none_fields in E as (_ & _ & _ & _ & _ & Hi).
  unfold commit_voucher, auto_register.
  destruct (findOne_user (Voucher.issuedTo v) (Db.users db)) eqn:Ef;
    [exact Hok|].
  destruct (Js.truthy (userPubHex db v)); [|exact Hok].
  now apply users_ok_insert.
Qed.

Lemma register_key_users_ok db userId publicKeyHex now :
  users_ok db -> users_ok (fst (register_key db userId publicKeyHex now)).
Proof.
  intro Hok. unfold register_key.
  destruct (Js.truthy userId) eqn:Hid; cbn [negb orb]; [|exact Hok].
  destruct (Js.truthy publicKeyHex); cbn [negb fst]; [|exact Hok].
  unfold upsert_key.
  destruct (findOne_user userId (Db.users db)) eqn:Ef.
  - unfold users_ok, user_ids. cbn [Db.users].
    rewrite updateOne_user_ids by reflexivity. exact Hok.
  - now apply users_ok_insert.
Qed.

(** No two user documents share a userId and every userId is truthy,
    after any sequence of requests: neither auto-registration nor the
    upsert of register-key meets the unique index on [userId]. *)
Theorem users_ok_kept db rs :
  users_ok db -> users_ok (run db rs).
Proof.
  apply (api_run_invariant users_ok).
  - intros. now apply process_voucher_users_ok.
  - intros. now apply register_key_users_ok.
  - intros d u a n H. unfold users_ok. now rewrite balance_add_user_ids.
  - intros d u a m vi n H. unfold users_ok.
    now rewrite balance_deduct_user_ids.
Qed.

End StoreInvariants.

(** ** The key store under settlement and register-key *)

Lemma users_extend_refl users : users_extend users users.
Proof.
  intro id. destruct (findOne_user id users); [now left|reflexivity].
Qed.

Lemma users_extend_trans u1 u2 u3 :
  users_extend u1 u2 -> users_extend u2 u3 -> users_extend u1 u3.
Proof.
  intros H12 H23 id. specialize (H12 id). specialize (H23 id).
  destruct (findOne_user id u3) as [x|].
  - destruct H23 as [H|(H & Hb & Hh)].
    + rewrite H in H12. exact H12.
    + rewrite H in H12. right. now repeat split.
  - rewrite H23 in H12. exact H12.
Qed.

Lemma auto_register_extend now issuedTo pub users :
  users_extend users (auto_register now issuedTo pub users).
Proof.
  unfold auto_register.
  destruct (findOne_user issuedTo users) eqn:Ef;
    [apply users_extend_refl|].
  destruct (Js.truthy pub); [|apply users_extend_refl].
  intro id. rewrite findOne_user_insert.
  destruct (findOne_user id users) eqn:Eid; [now left|].
  cbn [UserDoc.userId].
  destruct (Js.strict_eq issuedTo id); [|reflexivity].
  right. now repeat split.
Qed.

Section KeyStore.

Variable sha256_hex : string -> string.
Variable Key : Type.
Variable keyFromPublic : Js.value -> option Key.
Variable key_verify : Key -> string -> Js.value -> option bool.

Local Abbreviation process :=
  (process_voucher sha256_hex Key keyFromPublic key_verify).
Local Abbreviation first_fail :=
  (first_failure sha256_hex Key keyFromPublic key_verify).
Local Abbreviation trace :=
  (sync_trace sha256_hex Key keyFromPublic key_verify).
Local Abbreviation after :=
  (db_after sha256_hex Key keyFromPublic key_verify).
Local Abbreviation loop :=
  (sync_loop sha256_hex Key keyFromPublic key_verify).
Local Abbreviation handler :=
  (sync sha256_hex Key keyFromPublic key_verify).
Local Abbreviation handler_all :=
  (sync_all sha256_hex Key keyFromPublic key_verify).

Lemma sync_all_invariant (P : Db.t -> Prop) :
  (forall merchantId now db v,
      P db -> P (fst (process merchantId now db v))) ->
  forall reqs db, P db -> P (fst (handler_all db reqs)).
Proof.
  intros Hstep reqs. induction reqs as [|req rest IH]; intros db Hdb;
    [exact Hdb|].
  cbn [sync_all].
  pose proof (sync_invariant sha256_hex Key keyFromPublic key_verify
                             P Hstep db req Hdb) as H1.
  destruct (handler db req) as [db1 resp]. cbn [fst] in H1.
  specialize (IH db1 H1).
  destruct (handler_all db1 rest) as [db2 resps]. exact IH.
Qed.

Lemma process_voucher_users_extend merchantId now db v :
  users_extend (Db.users db) (Db.users (fst (process merchantId now db v))).
Proof.
  rewrite process_voucher_first_failure.
  destruct (first_fail merchantId db v check_order); cbn [fst];
    [apply users_extend_refl|].
  unfold commit_voucher. cbn [Db.users]. apply auto_register_extend.
Qed.

(** Settlement moves no balance: after any sequence of sync requests
    every identity has the balance it had, every user document that
    existed is unchanged, and a user document that appeared has neither
    balance nor history. *)
Theorem sync_moves_no_balance db reqs id :
  balance_view (fst (handler_all db reqs)) id = balance_view db id
  /\ (forall u,
        findOne_user id (Db.users db) = Some u ->
        findOne_user id (Db.users (fst (handler_all db reqs))) = Some u)
  /\ (forall u',
        findOne_user id (Db.users db) = None ->
        findOne_user id (Db.users (fst (handler_all db reqs))) = Some u' ->
        UserDoc.balance u' = None /\ UserDoc.balanceHistory u' = None).
Proof.
  assert (users_extend (Db.users db)
                       (Db.users (fst (handler_all db reqs)))) as Hext.
  { apply (sync_all_invariant
             (fun d => users_extend (Db.users db) (Db.users d))).
    - intros m n d v H. eapply users_extend_trans; [exact H|].
      apply process_voucher_users_extend.
    - apply users_extend_refl. }
  specialize (Hext id). unfold balance_view, balance_of.
  destruct (findOne_user id (Db.users (fst (handler_all db reqs))))
    as [u'|] eqn:E'.
  - destruct Hext as [H|(H & Hb & Hh)]; rewrite H; cbn [option_map].
    + split; [reflexivity|]. split; [intros u [= <-]; reflexivity|].
      discriminate.
    + split; [unfold balance_or_0; now rewrite Hb|].
      split; [discriminate|]. intros u'' _ [= <-]. now split.
  - rewrite Hext. cbn [option_map]. split; [reflexivity|].
    split; discriminate.
Qed.

Lemma register_key_spec db userId publicKeyHex now :
  (Js.truthy userId = false \/ Js.truthy publicKeyHex = false ->
   register_key db userId publicKeyHex now = (db, KeyInvalidBody))
  /\ (Js.truthy userId = true -> Js.truthy publicKeyHex = true ->
      let db' := fst (register_key db userId publicKeyHex now) in
      snd (register_key db userId publicKeyHex now) = KeyOk
      /\ (exists u,
            findOne_user userId (Db.users db') = Some u
            /\ UserDoc.userId u = userId
            /\ UserDoc.publicKeyHex u = publicKeyHex
            /\ UserDoc.registeredAt u = Js.Str now
            /\ match findOne_user userId (Db.users db) with
               | Some u0 =>
                   UserDoc.balance u = UserDoc.balance u0
                   /\ UserDoc.balanceHistory u = UserDoc.balanceHistory u0
               | None =>
                   UserDoc.balance u = None
                   /\ UserDoc.balanceHistory u = None
               end)
      /\ (forall other, other <> userId ->
            findOne_user other (Db.users db') =
            findOne_user other (Db.users db))
      /\ Db.vouchers db' = Db.vouchers db).
Proof.
  split.
  - intros [H|H]; unfold register_key; rewrite H; cbn [negb orb];
      [reflexivity|].
    destruct (negb (Js.truthy userId)); reflexivity.
  - intros Hid Hkey. cbn zeta. unfold register_key.
    rewrite Hid, Hkey. cbn [negb orb fst snd Db.users Db.vouchers].
    split; [reflexivity|]. unfold upsert_key.
    destruct (findOne_user userId (Db.users db)) as [u0|] eqn:Ef.
    + split; [|split; [|reflexivity]].
      * exists (set_key publicKeyHex now u0).
        split; [now apply findOne_user_updateOne|].
        unfold findOne_user in Ef. apply find_some in Ef as [_ Ef].
        apply strict_eq_true in Ef. cbn. now repeat split.
      * intros other Hne. now apply findOne_user_updateOne_other.
    + split; [|split; [|reflexivity]].
      * eexists. rewrite findOne_user_insert, Ef. cbn [UserDoc.userId].
        rewrite strict_eq_refl. split; [reflexivity|]. cbn.
        now repeat split.
      * intros other Hne. rewrite findOne_user_insert.
        destruct (findOne_user other (Db.users db)); [reflexivity|].
        cbn [UserDoc.userId].
        destruct (Js.strict_eq userId other) eqn:E; [|reflexivity].
        apply strict_eq_true in E. congruence.
Qed.

(** register-key: a falsy userId or key is refused and nothing is
    written; otherwise the identity resolves to a document carrying the
    given key and the request time, whatever key was stored before, with
    the balance and history it had; no other identity and no voucher is
    touched. *)
Theorem register_key_effect db userId publicKeyHex now :
  (Js.truthy userId = false \/ Js.truthy publicKeyHex = false ->
   register_key db userId publicKeyHex now = (db, KeyInvalidBody))
  /\ (Js.truthy userId = true -> Js.truthy publicKeyHex = true ->
      let db' := fst (register_key db userId publicKeyHex now) in
      snd (register_key db userId publicKeyHex now) = KeyOk
      /\ (exists u,
            findOne_user userId (Db.users db') = Some u
            /\ UserDoc.userId u = userId
            /\ UserDoc.publicKeyHex u = publicKeyHex
            /\ UserDoc.registeredAt u = Js.Str now
            /\ match findOne_user userId (Db.users db) with
               | Some u0 =>
                   UserDoc.balance u = UserDoc.balance u0
                   /\ UserDoc.balanceHistory u = UserDoc.balanceHistory u0
               | None =>
                   UserDoc.balance u = None
                   /\ UserDoc.balanceHistory u = None
               end)
      /\ (forall other, other <> userId ->
            findOne_user other (Db.users db') =
            findOne_user other (Db.users db))
      /\ Db.vouchers db' = Db.vouchers db).
Proof. apply register_key_spec. Qed.

(** A key registered through register-key is the one later vouchers of
    the identity without inline key are verified against, through any
    sequence of sync requests in between. *)
Theorem registered_key_resolves db userId publicKeyHex now reqs v :
  Js.truthy userId = true ->
  Js.truthy publicKeyHex = true ->
  Voucher.issuedTo v = userId ->
  Js.truthy (Voucher.publicKeyHex v) = false ->
  userPubHex
    (fst (handler_all (fst (register_key db userId publicKeyHex now)) reqs))
    v = publicKeyHex.
Proof.
  intros Hid Hkey Hv Hno.
  destruct (proj2 (register_key_spec db userId publicKeyHex now) Hid Hkey)
    as (_ & (u & Hu & _ & Hpub & _) & _).
  pose proof (sync_all_keeps_user sha256_hex Key keyFromPublic key_verify
                                  userId u reqs _ Hu) as Hkeep.
  unfold userPubHex. rewrite Hno, Hv, Hkeep. exact Hpub.
Qed.

(** The five checks before the duplicate check do not look at the
    database when the voucher carries its key inline. *)
Lemma early_checks_inline merchantId db1 db2 v :
  Js.truthy (Voucher.publicKeyHex v) = true ->
  first_fail merchantId db1 v checks_before_duplicate =
  first_fail merchantId db2 v checks_before_duplicate.
Proof.
  intro Hin. unfold checks_before_duplicate.
  cbn [first_failure check_reason]. unfold userPubHex. rewrite Hin.
  reflexivity.
Qed.

(** A voucher that carries its key inline is judged without the key
    store: its outcome is the same in any two databases with the same
    ledger, whatever key is stored for its identity; and accepting it
    leaves the stored document of the identity as it was. *)
Theorem inline_key_ignores_key_store merchantId now db1 db2 v :
  Js.truthy (Voucher.publicKeyHex v) = true ->
  Db.vouchers db1 = Db.vouchers db2 ->
  snd (process merchantId now db1 v) = snd (process merchantId now db2 v)
  /\ (forall u,
        findOne_user (Voucher.issuedTo v) (Db.users db1) = Some u ->
        findOne_user (Voucher.issuedTo v)
                     (Db.users (fst (process merchantId now db1 v)))
        = Some u).
Proof.
  intros Hin Hv. split.
  - rewrite !process_voucher_first_failure. unfold check_order.
    rewrite !first_failure_app.
    rewrite (early_checks_inline merchantId db1 db2 v Hin).
    destruct (first_fail merchantId db2 v checks_before_duplicate);
      [reflexivity|].
    cbn [first_failure check_reason]. rewrite Hv.
    destruct (findOne_voucher (Voucher.voucherId v) (Db.vouchers db2));
      reflexivity.
  - intros u Hu. now apply process_voucher_keeps_user.
Qed.

End KeyStore.

(** ** What a batch adds to the ledger *)









Section BatchGrowth.

Variable sha256_hex : string -> string.
Variable Key : Type.
Variable keyFromPublic : Js.value -> option Key.
Variable key_verify : Key -> string -> Js.value -> option bool.

Local Abbreviation process :=
  (process_voucher sha256_hex Key keyFromPublic key_verify).
Local Abbreviation first_fail :=
  (first_failure sha256_hex Key keyFromPublic key_verify).
Local Abbreviation trace :=
  (sync_trace sha256_hex Key keyFromPublic key_verify).
Local Abbreviation after :=
  (db_after sha256_hex Key keyFromPublic key_verify).
Local Abbreviation handler :=
  (sync sha256_hex Key keyFromPublic key_verify).

Lemma db_after_vouchers merchantId now vs : forall db,
  Db.vouchers (after merchantId now db vs) =
    (Db.vouchers db
     ++ map (stored_doc merchantId now)
            (accepted_of (trace merchantId now db vs)))%list
  /\ synced_of (trace merchantId now db vs) =
     map Voucher.voucherId (accepted_of (trace merchantId now db vs)).
Proof.
  induction vs as [|v rest IH]; intro db.
  - cbn. now rewrite app_nil_r.
  - rewrite db_after_cons. cbn [sync_trace].
    rewrite process_voucher_first_failure.
    destruct (first_fail merchantId db v check_order); cbn [fst].
    + destruct (IH db) as [H1 H2]. unfold accepted_of, synced_of in *.
      cbn [flat_map snd fst app]. now split.
    + destruct (IH (commit_voucher merchantId now db v)) as [H1 H2].
      unfold accepted_of, synced_of in *.
      cbn [flat_map snd fst app map]. split.
      * rewrite H1. unfold commit_voucher, insertOne. cbn [Db.vouchers].
        now rewrite <- app_assoc.
      * now rewrite H2.
Qed.

Lemma accepted_of_incl merchantId now vs : forall db,
  incl (accepted_of (trace merchantId now db vs)) vs.
Proof.
  induction vs as [|v rest IH]; intro db; [intros x []|].
  cbn [sync_trace]. destruct (process merchantId now db v) as [db1 o].
  unfold accepted_of. cbn [flat_map snd fst].
  destruct o; cbn [app].
  - intros x [<-|Hx]; [now left|right; now apply (IH db1)].
  - intros x Hx. right. now apply (IH db1).
Qed.




End BatchGrowth.

(** ** The dashboard and the merchant's transaction list *)


Section Figures.

Variable sha256_hex : string -> string.
Variable Key : Type.
Variable keyFromPublic : Js.value -> option Key.
Variable key_verify : Key -> string -> Js.value -> option bool.
Variable jwt_verify : string -> option Token.t.


End Figures.

Section MerchantList.

Variable sort_createdAt_desc : list VoucherDoc.t -> list VoucherDoc.t.


End MerchantList.

(** ** Sending a batch again *)

Section Resubmission.

Variable sha256_hex : string -> string.
Variable Key : Type.
Variable keyFromPublic : Js.value -> option Key.
Variable key_verify : Key -> string -> Js.value -> option bool.

Local Abbreviation process :=
  (process_voucher sha256_hex Key keyFromPublic key_verify).
Local Abbreviation first_fail :=
  (first_failure sha256_hex Key keyFromPublic key_verify).
Local Abbreviation trace :=
  (sync_trace sha256_hex Key keyFromPublic key_verify).
Local Abbreviation after :=
  (db_after sha256_hex Key keyFromPublic key_verify).
Local Abbreviation handler :=
  (sync sha256_hex Key keyFromPublic key_verify).

(** A stored identifier stays stored along a batch. *)
Lemma db_after_keeps_voucher merchantId now vs db id d :
  findOne_voucher id (Db.vouchers db) = Some d ->
  findOne_voucher id (Db.vouchers (after merchantId now db vs)) = Some d.
Proof.
  intro H.
  destruct (db_after_extends sha256_hex Key keyFromPublic key_verify
                             merchantId now vs db) as [added E].
  rewrite E. unfold findOne_voucher. now apply find_app_some.
Qed.

(** After a batch, every voucher of it that passes the five checks
    before the duplicate check has its identifier in the ledger. *)
Lemma db_after_stores_passing merchantId now vs : forall db v,
  all_inline vs ->
  In v vs ->
  first_fail merchantId db v checks_before_duplicate = None ->
  findOne_voucher (Voucher.voucherId v)
                  (Db.vouchers (after merchantId now db vs)) <> None.
Proof.
  induction vs as [|v0 rest IH]; intros db v Hin Hv Hpass; [destruct Hv|].
  inversion Hin as [|? ? Hin0 Hrest]; subst.
  rewrite db_after_cons. destruct Hv as [->|Hv].
  - rewrite process_voucher_first_failure. unfold check_order.
    rewrite first_failure_app, Hpass. cbn [first_failure check_reason].
    destruct (findOne_voucher (Voucher.voucherId v) (Db.vouchers db))
      as [d|] eqn:Ef; cbn [fst].
    + rewrite (db_after_keeps_voucher merchantId now rest db _ d Ef).
      discriminate.
    + erewrite db_after_keeps_voucher; [discriminate|].
      unfold commit_voucher, insertOne, findOne_voucher in *.
      cbn [Db.vouchers]. rewrite (find_app_none _ _ _ Ef).
      cbn [find stored_doc VoucherDoc.voucherId].
      rewrite strict_eq_refl. reflexivity.
  - apply IH; [exact Hrest|exact Hv|].
    inversion Hin as [|? ? _ Hall]; subst.
    assert (Js.truthy (Voucher.publicKeyHex v) = true) as Hk.
    { exact (proj1 (Forall_forall _ _) Hall v Hv). }
    rewrite <- Hpass.
    apply (early_checks_inline sha256_hex Key keyFromPublic key_verify).
    exact Hk.
Qed.

(** A batch in which every voucher either fails an early check or has
    its identifier stored is rejected as a whole. *)
Lemma all_rejected merchantId now vs : forall db,
  (forall v, In v vs ->
     first_fail merchantId db v checks_before_duplicate <> None
     \/ findOne_voucher (Voucher.voucherId v) (Db.vouchers db) <> None) ->
  after merchantId now db vs = db
  /\ synced_of (trace merchantId now db vs) = []
  /\ List.length (rejected_of (trace merchantId now db vs)) = List.length vs.
Proof.
  induction vs as [|v rest IH]; intros db H; [now repeat split|].
  rewrite db_after_cons. cbn [sync_trace].
  assert (exists r, process merchantId now db v = (db, Reject r))
    as [r Hr].
  { rewrite process_voucher_first_failure. unfold check_order.
    rewrite first_failure_app.
    destruct (first_fail merchantId db v checks_before_duplicate)
      as [r|] eqn:E; [now exists r|].
    cbn [first_failure check_reason].
    destruct (H v (or_introl eq_refl)) as [Hc|Hc]; [congruence|].
    destruct (findOne_voucher (Voucher.voucherId v) (Db.vouchers db));
      [eexists; reflexivity|congruence]. }
  rewrite Hr. cbn [fst].
  destruct (IH db (fun x Hx => H x (or_intror Hx))) as (I1 & I2 & I3).
  unfold synced_of, rejected_of in *. cbn [flat_map snd fst app List.length].
  now rewrite I1, I2, I3.
Qed.

(** Sending a batch again is harmless when its vouchers carry their
    keys inline: the second request, at whatever time, accepts nothing,
    rejects every voucher and leaves the database as the first request
    left it. *)
Theorem resubmitted_batch_rejected db req now' vs :
  Js.truthy (req_merchantId req) = true ->
  req_vouchers req = Some vs ->
  all_inline vs ->
  let db1 := fst (handler db req) in
  let again := mkSyncRequest (req_merchantId req) (Some vs) now' in
  exists rejected,
    handler db1 again =
    (db1, SyncResult [] rejected (countDocuments (Db.vouchers db1)))
    /\ List.length rejected = List.length vs.
Proof.
  intros Hm Hv Hin. cbn zeta.
  assert (fst (handler db req) =
          after (req_merchantId req) (req_now req) db vs) as E.
  { rewrite sync_unfold, Hm, Hv. reflexivity. }
  rewrite E.
  set (db1 := after (req_merchantId req) (req_now req) db vs).
  destruct (all_rejected (req_merchantId req) now' vs db1)
    as (H1 & H2 & H3).
  { intros v Hvin.
    destruct (first_fail (req_merchantId req) db1 v checks_before_duplicate)
      as [r|] eqn:Ep; [left; discriminate|right].
    apply db_after_stores_passing; [exact Hin|exact Hvin|].
    rewrite <- Ep.
    apply (early_checks_inline sha256_hex Key keyFromPublic key_verify).
    exact (proj1 (Forall_forall _ _) Hin v Hvin). }
  exists (rejected_of (trace (req_merchantId req) now' db1 vs)).
  split; [|exact H3].
  rewrite sync_unfold. cbn [req_merchantId req_vouchers req_now].
  rewrite Hm. cbn [negb]. cbn zeta. now rewrite H1, H2.
Qed.

End Resubmission.

(** ** The token middlewares *)

Lemma prefix_app_iff p s :
  String.prefix p s = true <-> exists rest, s = p ++ rest.
Proof.
  revert s. induction p as [|a p IH]; intro s.
  - split; [intros _; now exists s|intros _; now destruct s].
  - destruct s as [|b s]; simpl.
    + split; [discriminate|intros [rest H]; discriminate H].
    + destruct (Ascii.ascii_dec a b) as [E|Hne].
      * rewrite IH. split; intros [rest H]; exists rest; congruence.
      * split; [discriminate|]. intros [rest H]. congruence.
Qed.

Lemma substring_all t : String.substring 0 (String.length t) t = t.
Proof. induction t as [|c t IH]; simpl; [reflexivity|now rewrite IH]. Qed.

Lemma after_bearer_app token :
  String.substring 7 (String.length ("Bearer " ++ token) - 7)
                   ("Bearer " ++ token) = token.
Proof.
  simpl. rewrite Nat.sub_0_r. apply substring_all.
Qed.

Section AuthFacts.

Variable jwt_verify : string -> option Token.t.

Lemma authMiddleware_bearer token :
  authMiddleware jwt_verify (Some ("Bearer " ++ token)) =
  match jwt_verify token with
  | Some user => Next user
  | None => Unauthorized "Invalid or expired token"
  end.
Proof.
  unfold authMiddleware, no_bearer, verifyToken, after_bearer.
  rewrite after_bearer_app.
  assert (String.prefix "Bearer " ("Bearer " ++ token) = true) as ->
      by (apply prefix_app_iff; now exists token).
  cbn. destruct (jwt_verify token); reflexivity.
Qed.

Lemma authMiddleware_no_bearer authorization :
  (forall token, authorization <> Some ("Bearer " ++ token)) ->
  authMiddleware jwt_verify authorization = Unauthorized "No token provided".
Proof.
  intro H. unfold authMiddleware, no_bearer.
  destruct authorization as [h|]; [|reflexivity].
  destruct (String.prefix "Bearer " h) eqn:E.
  - apply prefix_app_iff in E as [rest ->]. now destruct (H rest).
  - now rewrite orb_true_r.
Qed.

(** The strict middleware lets a request through exactly when the
    header is "Bearer " followed by a token the verifier accepts, and
    [req.user] is then what the verifier decoded from the text after
    the seventh character; every other header is answered 401, with "No
    token provided" when it does not start with "Bearer ". *)
Theorem authMiddleware_passes_iff authorization user :
  (authMiddleware jwt_verify authorization = Next user <->
   exists token,
     authorization = Some ("Bearer " ++ token)
     /\ jwt_verify token = Some user)
  /\ ((forall token, authorization <> Some ("Bearer " ++ token)) ->
      authMiddleware jwt_verify authorization =
      Unauthorized "No token provided")
  /\ (forall token,
        authorization = Some ("Bearer " ++ token) ->
        jwt_verify token = None ->
        authMiddleware jwt_verify authorization =
        Unauthorized "Invalid or expired token").
Proof.
  split; [|split].
  - split.
    + intro H. destruct authorization as [h|]; [|discriminate H].
      destruct (String.prefix "Bearer " h) eqn:E.
      * apply prefix_app_iff in E as [token ->]. exists token.
        split; [reflexivity|]. rewrite authMiddleware_bearer in H.
        destruct (jwt_verify token); [congruence|discriminate].
      * unfold authMiddleware, no_bearer in H. rewrite E in H.
        rewrite orb_true_r in H. discriminate.
    + intros (token & -> & Hv). now rewrite authMiddleware_bearer, Hv.
  - apply authMiddleware_no_bearer.
  - intros token -> Hv. now rewrite authMiddleware_bearer, Hv.
Qed.

(** The optional middleware sets [req.user] exactly when the strict one
    lets the request through, and to the same payload. *)
Theorem optionalAuthMiddleware_agrees authorization :
  optionalAuthMiddleware jwt_verify authorization =
  match authMiddleware jwt_verify authorization with
  | Next user => Some user
  | Unauthorized _ => None
  end.
Proof.
  unfold optionalAuthMiddleware, authMiddleware, no_bearer.
  destruct authorization as [h|]; [|reflexivity].
  destruct (h =? EmptyString)%string; cbn [negb andb orb]; [reflexivity|].
  destruct (String.prefix "Bearer " h); cbn [negb]; [|reflexivity].
  destruct (verifyToken jwt_verify (after_bearer h)); reflexivity.
Qed.

(** A balance request changes at most the document of the identity in
    its token: without a token the verifier accepts it is answered 401
    and writes nothing; in every case the vouchers, the set of user
    identifiers and the document of every other identity stay as they
    were. *)
Theorem balance_requests_touch_own_document db authorization amount
        merchantId voucherId now :
  let add := api_balance_add jwt_verify db authorization amount now in
  let deduct := api_balance_deduct jwt_verify db authorization amount
                                   merchantId voucherId now in
  ((forall user, authMiddleware jwt_verify authorization <> Next user) ->
   exists error,
     add = (db, Error 401 error) /\ deduct = (db, Error 401 error))
  /\ Db.vouchers (fst add) = Db.vouchers db
  /\ Db.vouchers (fst deduct) = Db.vouchers db
  /\ user_ids (fst add) = user_ids db
  /\ user_ids (fst deduct) = user_ids db
  /\ (forall other,
        (forall user, authMiddleware jwt_verify authorization = Next user ->
                      Token.userId user <> other) ->
        findOne_user other (Db.users (fst add)) =
          findOne_user other (Db.users db)
        /\ findOne_user other (Db.users (fst deduct)) =
           findOne_user other (Db.users db)).
Proof.
  cbn zeta. unfold api_balance_add, api_balance_deduct.
  destruct (authMiddleware jwt_verify authorization) as [e|user] eqn:Ea.
  - split; [intros _; now exists e|]. now repeat split.
  - split; [intro H; now destruct (H user)|].
    split; [apply balance_add_vouchers|].
    split; [apply balance_deduct_vouchers|].
    split; [apply balance_add_user_ids|].
    split; [apply balance_deduct_user_ids|].
    intros other Hother. specialize (Hother user eq_refl).
    assert (other <> Token.userId user) as Hne by congruence.
    split.
    + unfold balance_add. destruct (invalid_amount amount); [reflexivity|].
      destruct (Js.to_Z amount >? 1000); [reflexivity|].
      destruct (findOne_user (Token.userId user) (Db.users db));
        [|reflexivity].
      cbn [fst Db.users]. now apply findOne_user_updateOne_other.
    + unfold balance_deduct. destruct (invalid_amount amount); [reflexivity|].
      destruct (findOne_user (Token.userId user) (Db.users db)) as [u|];
        [|reflexivity].
      destruct (balance_or_0 u <? Js.to_Z amount); [reflexivity|].
      cbn [fst Db.users]. now apply findOne_user_updateOne_other.
Qed.

(** Reading the balance after a credit or a debit with the same header
    returns the balance the credit or debit answered; a refused credit
    or debit leaves the database as it was. *)
Theorem balance_read_after_write db authorization amount merchantId
        voucherId now :
  (match snd (api_balance_add jwt_verify db authorization amount now) with
   | Success balance _ _ =>
       api_balance_get jwt_verify
         (fst (api_balance_add jwt_verify db authorization amount now))
         authorization = inr balance
   | _ => fst (api_balance_add jwt_verify db authorization amount now) = db
   end)
  /\ (match snd (api_balance_deduct jwt_verify db authorization amount
                                    merchantId voucherId now) with
      | Success balance _ _ =>
          api_balance_get jwt_verify
            (fst (api_balance_deduct jwt_verify db authorization amount
                                     merchantId voucherId now))
            authorization = inr balance
      | _ => fst (api_balance_deduct jwt_verify db authorization amount
                                     merchantId voucherId now) = db
      end).
Proof.
  unfold api_balance_add, api_balance_deduct, api_balance_get.
  destruct (authMiddleware jwt_verify authorization) as [e|user];
    [split; reflexivity|].
  split.
  - unfold balance_add. destruct (invalid_amount amount); [reflexivity|].
    destruct (Js.to_Z amount >? 1000); [reflexivity|].
    destruct (findOne_user (Token.userId user) (Db.users db)) as [u|] eqn:Eu;
      [|reflexivity].
    cbn [fst snd Db.users].
    rewrite (findOne_user_updateOne _ _ _ u) by (reflexivity || exact Eu).
    now rewrite balance_or_0_set.
  - unfold balance_deduct. destruct (invalid_amount amount); [reflexivity|].
    destruct (findOne_user (Token.userId user) (Db.users db)) as [u|] eqn:Eu;
      [|reflexivity].
    destruct (balance_or_0 u <? Js.to_Z amount); [reflexivity|].
    cbn [fst snd Db.users].
    rewrite (findOne_user_updateOne _ _ _ u) by (reflexivity || exact Eu).
    now rewrite balance_or_0_set.
Qed.

End AuthFacts.

(** ** The balance history as an audit trail *)

Lemma end_balance_app b l1 l2 :
  end_balance b (l1 ++ l2) = end_balance (end_balance b l1) l2.
Proof. unfold end_balance. apply fold_left_app. Qed.

Lemma chained_app l1 : forall b l2,
  chained b l1 -> chained (end_balance b l1) l2 -> chained b (l1 ++ l2).
Proof.
  induction l1 as [|h l1 IH]; intros b l2 H1 H2; [exact H2|].
  cbn [app chained] in *. destruct H1 as (Hp & Hn & Ha & Hrest).
  repeat split; try assumption.
  apply IH; [exact Hrest|].
  unfold end_balance in *. cbn [fold_left] in H2. now rewrite Hn.
Qed.

(** One wallet operation appends one entry when it succeeds and none
    when it is refused; the entry starts at the balance before and ends
    at the balance after. *)
Lemma wallet_step_history userId db op u :
  findOne_user userId (Db.users db) = Some u ->
  exists u1 added,
    findOne_user userId (Db.users (fst (wallet_step userId db op))) = Some u1
    /\ history_of u1 = (history_of u ++ added)%list
    /\ chained (balance_or_0 u) added
    /\ balance_or_0 u1 = end_balance (balance_or_0 u) added
    /\ List.length added = successes [snd (wallet_step userId db op)].
Proof.
  intro Hu.
  assert (exists u1 added,
            findOne_user userId (Db.users db) = Some u1
            /\ history_of u1 = (history_of u ++ added)%list
            /\ chained (balance_or_0 u) added
            /\ balance_or_0 u1 = end_balance (balance_or_0 u) added
            /\ List.length added = 0%nat) as Hsame.
  { exists u, []. rewrite app_nil_r. now repeat split. }
  destruct op as [amount now|amount merchantId voucherId now];
    cbn [wallet_step successes].
  - unfold balance_add.
    destruct (invalid_amount amount) eqn:Ei; [exact Hsame|].
    destruct (Js.to_Z amount >? 1000); [exact Hsame|].
    rewrite Hu. cbn [fst snd Db.users is_success].
    assert (0 < Js.to_Z amount) as Hpos.
    { destruct amount as [| |b|z|s]; try discriminate Ei;
        try (now destruct b).
      - rewrite invalid_amount_num in Ei. apply Z.leb_gt in Ei. exact Ei.
      - unfold invalid_amount in Ei. cbn in Ei.
        destruct (s =? EmptyString)%string; discriminate. }
    eexists. eexists.
    split; [apply findOne_user_updateOne; [reflexivity|exact Hu]|].
    split; [apply history_of_set|].
    rewrite balance_or_0_set. unfold end_balance, movement.
    cbn. repeat split; try reflexivity; try lia.
  - unfold balance_deduct.
    destruct (invalid_amount amount) eqn:Ei; [exact Hsame|].
    rewrite Hu.
    destruct (balance_or_0 u <? Js.to_Z amount); [exact Hsame|].
    cbn [fst snd Db.users is_success].
    assert (0 < Js.to_Z amount) as Hpos.
    { destruct amount as [| |b|z|s]; try discriminate Ei;
        try (now destruct b).
      - rewrite invalid_amount_num in Ei. apply Z.leb_gt in Ei. exact Ei.
      - unfold invalid_amount in Ei. cbn in Ei.
        destruct (s =? EmptyString)%string; discriminate. }
    eexists. eexists.
    split; [apply findOne_user_updateOne; [reflexivity|exact Hu]|].
    split; [apply history_of_set|].
    rewrite balance_or_0_set. unfold end_balance, movement.
    cbn. repeat split; try reflexivity; try lia.
Qed.

Lemma wallet_run_history userId ops : forall db u,
  findOne_user userId (Db.users db) = Some u ->
  exists u' added,
    findOne_user userId (Db.users (fst (wallet_run userId db ops))) = Some u'
    /\ history_of u' = (history_of u ++ added)%list
    /\ chained (balance_or_0 u) added
    /\ balance_or_0 u' = end_balance (balance_or_0 u) added
    /\ List.length added = successes (snd (wallet_run userId db ops)).
Proof.
  induction ops as [|op rest IH]; intros db u Hu.
  - exists u, []. cbn. rewrite app_nil_r. now repeat split.
  - cbn [wallet_run].
    destruct (wallet_step_history userId db op u Hu)
      as (u1 & a1 & H1 & Hh1 & Hc1 & Hb1 & Hl1).
    destruct (wallet_step userId db op) as [db1 resp]. cbn [fst snd] in *.
    destruct (IH db1 u1 H1) as (u' & a2 & H2 & Hh2 & Hc2 & Hb2 & Hl2).
    destruct (wallet_run userId db1 rest) as [db2 resps].
    cbn [fst snd] in *.
    exists u', (a1 ++ a2)%list.
    split; [exact H2|].
    split; [now rewrite Hh2, Hh1, app_assoc|].
    split; [apply chained_app; [exact Hc1|now rewrite <- Hb1]|].
    split; [now rewrite Hb2, Hb1, end_balance_app|].
    rewrite length_app, Hl1, Hl2. cbn [successes]. lia.
Qed.



(* ------------------------------------------------------------------ *)
(** ** Concrete runs of the further properties *)

Section MoreRuns.

Import Scenario Scenario2.

(** Six requests of all kinds on a database with one wallet. *)
Lemma ledger_ok_kept_run :
  ledger_ok wallet_db
  /\ ledger_ok (Scenario2.api_run wallet_db requests).
Proof.
  assert (ledger_ok wallet_db) as H by constructor.
  split; [exact H|].
  exact (ledger_ok_kept Demo.sha256_hex Demo.Key Demo.keyFromPublic
                        Demo.key_verify jwt_verify wallet_db requests H).
Defined.

Lemma voucher_ids_unique_run :
  NoDup (voucher_ids wallet_db)
  /\ NoDup (voucher_ids (Scenario2.api_run wallet_db requests)).
Proof.
  assert (NoDup (voucher_ids wallet_db)) as H by constructor.
  split; [exact H|].
  exact (voucher_ids_unique_kept Demo.sha256_hex Demo.Key Demo.keyFromPublic
                                 Demo.key_verify jwt_verify wallet_db
                                 requests H).
Defined.

Lemma users_ok_run :
  users_ok wallet_db
  /\ users_ok (Scenario2.api_run wallet_db requests).
Proof.
  assert (users_ok wallet_db) as H.
  { split; repeat constructor. intros []. }
  split; [exact H|].
  exact (users_ok_kept Demo.sha256_hex Demo.Key Demo.keyFromPublic
                       Demo.key_verify jwt_verify wallet_db requests H).
Defined.

(** Three batches leave alice's wallet as it was. *)
Lemma sync_moves_no_balance_run :
  findOne_user (Js.Str "user_1") (Db.users wallet_db) = Some alice
  /\ findOne_user (Js.Str "user_1")
       (Db.users (fst (Demo.sync_all wallet_db
                         [batch_mixed; batch_v1_by_M2; batch_nonpositive])))
     = Some alice.
Proof.
  split; [reflexivity|].
  apply (proj1 (proj2 (sync_moves_no_balance
                         Demo.sha256_hex Demo.Key Demo.keyFromPublic
                         Demo.key_verify wallet_db
                         [batch_mixed; batch_v1_by_M2; batch_nonpositive]
                         (Js.Str "user_1")))).
  reflexivity.
Defined.

(** Registering a key for [u1], whose key [04aa] was stored by a sync. *)
Lemma register_key_effect_run :
  Js.truthy (Js.Str "u1") = true
  /\ Js.truthy (Js.Str "04dd") = true
  /\ option_map UserDoc.publicKeyHex
       (findOne_user (Js.Str "u1") (Db.users db1)) = Some (Js.Str "04aa")
  /\ exists u,
      findOne_user (Js.Str "u1")
        (Db.users (fst (register_key db1 (Js.Str "u1") (Js.Str "04dd") "t4")))
      = Some u
      /\ UserDoc.publicKeyHex u = Js.Str "04dd".
Proof.
  split; [reflexivity|]. split; [reflexivity|]. split; [reflexivity|].
  destruct (proj2 (register_key_effect db1 (Js.Str "u1") (Js.Str "04dd") "t4")
                  eq_refl eq_refl)
    as (_ & (u & Hu & _ & Hk & _) & _).
  exists u. split; [exact Hu|exact Hk].
Defined.

Lemma registered_key_resolves_run :
  Js.truthy (Js.Str "u1") = true
  /\ Js.truthy (Js.Str "04dd") = true
  /\ Voucher.issuedTo v6_no_inline_key = Js.Str "u1"
  /\ Js.truthy (Voucher.publicKeyHex v6_no_inline_key) = false
  /\ userPubHex
       (fst (Demo.sync_all
               (fst (register_key db1 (Js.Str "u1") (Js.Str "04dd") "t4"))
               [batch_mixed; batch_v1_by_M2]))
       v6_no_inline_key = Js.Str "04dd".
Proof.
  repeat (split; [reflexivity|]).
  exact (registered_key_resolves
           Demo.sha256_hex Demo.Key Demo.keyFromPublic Demo.key_verify
           db1 (Js.Str "u1") (Js.Str "04dd") "t4"
           [batch_mixed; batch_v1_by_M2] v6_no_inline_key
           eq_refl eq_refl eq_refl eq_refl).
Defined.

(** [v2] is judged alike whether [u1] has the key [04aa] or [04dd]. *)
Lemma inline_key_ignores_key_store_run :
  Js.truthy (Voucher.publicKeyHex v2) = true
  /\ Db.vouchers db1 =
     Db.vouchers (fst (register_key db1 (Js.Str "u1") (Js.Str "04dd") "t4"))
  /\ snd (Demo.process_voucher M1 "t5" db1 v2) =
     snd (Demo.process_voucher M1 "t5"
            (fst (register_key db1 (Js.Str "u1") (Js.Str "04dd") "t4")) v2).
Proof.
  split; [reflexivity|]. split; [reflexivity|].
  exact (proj1 (inline_key_ignores_key_store
                  Demo.sha256_hex Demo.Key Demo.keyFromPublic Demo.key_verify
                  M1 "t5" db1
                  (fst (register_key db1 (Js.Str "u1") (Js.Str "04dd") "t4"))
                  v2 eq_refl eq_refl)).
Defined.





Lemma resubmitted_batch_rejected_run :
  Js.truthy (req_merchantId batch_inline) = true
  /\ req_vouchers batch_inline = Some inline_batch
  /\ all_inline inline_batch
  /\ exists rejected,
      Demo.sync (fst (Demo.sync Demo.empty_db batch_inline))
                (mkSyncRequest M1 (Some inline_batch) "t9") =
      (fst (Demo.sync Demo.empty_db batch_inline),
       SyncResult [] rejected
         (countDocuments
            (Db.vouchers (fst (Demo.sync Demo.empty_db batch_inline)))))
      /\ List.length rejected = List.length inline_batch.
Proof.
  assert (all_inline inline_batch) as H by (repeat constructor).
  split; [reflexivity|]. split; [reflexivity|]. split; [exact H|].
  exact (resubmitted_batch_rejected
           Demo.sha256_hex Demo.Key Demo.keyFromPublic Demo.key_verify
           Demo.empty_db batch_inline "t9" inline_batch eq_refl eq_refl H).
Defined.

(** A header with a token the verifier accepts, one it refuses, and one
    that is no bearer header. *)
Lemma authMiddleware_passes_iff_run :
  authMiddleware jwt_verify alice_header = Next alice_token
  /\ authMiddleware jwt_verify forged_header =
     Unauthorized "Invalid or expired token"
  /\ authMiddleware jwt_verify basic_header =
     Unauthorized "No token provided".
Proof.
  split; [|split].
  - apply (proj2 (proj1 (authMiddleware_passes_iff jwt_verify alice_header
                                                   alice_token))).
    exists "jwt:user_1". split; reflexivity.
  - apply (proj2 (proj2 (authMiddleware_passes_iff jwt_verify forged_header
                                                   alice_token))
                 "forged"); reflexivity.
  - apply (proj1 (proj2 (authMiddleware_passes_iff jwt_verify basic_header
                                                   alice_token))).
    intros token H. discriminate H.
Defined.

(** Alice's credit leaves bob's wallet alone; a forged token moves
    nothing. *)
Lemma balance_requests_touch_own_document_run :
  findOne_user (Js.Str "user_2")
    (Db.users (fst (api_balance_add jwt_verify two_wallets alice_header
                                    (Js.Num 5) "t1")))
  = Some bob
  /\ exists error,
      api_balance_add jwt_verify two_wallets forged_header (Js.Num 5) "t1"
      = (two_wallets, Error 401 error).
Proof.
  split.
  - destruct (balance_requests_touch_own_document
                jwt_verify two_wallets alice_header (Js.Num 5) M1
                (Js.Str "v1") "t1") as (_ & _ & _ & _ & _ & H).
    apply (H (Js.Str "user_2")).
    intros user Hu. injection Hu as <-. discriminate.
  - destruct (balance_requests_touch_own_document
                jwt_verify two_wallets forged_header (Js.Num 5) M1
                (Js.Str "v1") "t1") as (H & _).
    destruct H as (e & He & _); [intros user Hu; discriminate Hu|].
    now exists e.
Defined.



End MoreRuns.

(** ** The user's transaction list *)

Section UserList.

Variable sort_createdAt_desc : list VoucherDoc.t -> list VoucherDoc.t.
Variable sort_newest_first : list UserTx.t -> list UserTx.t.

(** Whatever order the two sorts produce, the transaction list of a
    user with a truthy userId holds exactly one entry per balance
    history entry (a credit for an add, a debit for a payment) and no
    voucher, since no voucher document has a payerId; so after any
    sequence of credits and debits the count has grown by the number of
    successful operations. *)
Theorem user_transactions_are_history db user u ops :
  (forall l, Permutation (sort_createdAt_desc l) l) ->
  (forall l, Permutation (sort_newest_first l) l) ->
  Js.truthy (Token.userId user) = true ->
  findOne_user (Token.userId user) (Db.users db) = Some u ->
  (exists txs,
      user_transactions sort_createdAt_desc sort_newest_first db user =
      inr (txs, Z.of_nat (List.length (history_of u)))
      /\ Permutation txs (map balance_tx (history_of u)))
  /\ (exists txs',
        user_transactions sort_createdAt_desc sort_newest_first
          (fst (wallet_run (Token.userId user) db ops)) user =
        inr (txs',
             Z.of_nat (List.length (history_of u)
                       + successes
                           (snd (wallet_run (Token.userId user) db ops))))).
Proof.
  intros Hp1 Hp2 Hid Hu.
  assert (forall d u0,
            findOne_user (Token.userId user) (Db.users d) = Some u0 ->
            exists txs,
              user_transactions sort_createdAt_desc sort_newest_first d user
              = inr (txs, Z.of_nat (List.length (history_of u0)))
              /\ Permutation txs (map balance_tx (history_of u0))) as Hgen.
  { intros d u0 H0. unfold user_transactions. rewrite H0.
    assert (find_by_payer (Token.userId user) (Db.vouchers d) = []) as ->.
    { unfold find_by_payer.
      destruct (Token.userId user); try reflexivity; discriminate Hid. }
    assert (sort_createdAt_desc [] = []) as ->.
    { apply Permutation_nil, Permutation_sym, Hp1. }
    cbn [map]. rewrite app_nil_r. eexists. split; [|apply Hp2].
    f_equal. f_equal.
    rewrite (Permutation_length (Hp2 _)). now rewrite length_map. }
  split; [now apply Hgen|].
  destruct (wallet_run_history (Token.userId user) ops db u Hu)
    as (u' & added & H1 & H2 & _ & _ & H5).
  destruct (Hgen _ u' H1) as (txs & Ht & _).
  exists txs. rewrite Ht, H2, length_app, H5. reflexivity.
Qed.

End UserList.

(** ** Vouchers judged on their own *)

Section Independence.

Variable sha256_hex : string -> string.
Variable Key : Type.
Variable keyFromPublic : Js.value -> option Key.
Variable key_verify : Key -> string -> Js.value -> option bool.

Local Abbreviation process :=
  (process_voucher sha256_hex Key keyFromPublic key_verify).
Local Abbreviation first_fail :=
  (first_failure sha256_hex Key keyFromPublic key_verify).
Local Abbreviation trace :=
  (sync_trace sha256_hex Key keyFromPublic key_verify).
Local Abbreviation after :=
  (db_after sha256_hex Key keyFromPublic key_verify).

(** A batch stores nothing under an identifier none of its vouchers
    has. *)
Lemma db_after_other_id merchantId now vs db id :
  ~ In id (map Voucher.voucherId vs) ->
  findOne_voucher id (Db.vouchers (after merchantId now db vs)) =
  findOne_voucher id (Db.vouchers db).
Proof.
  intro Hnot.
  destruct (db_after_vouchers sha256_hex Key keyFromPublic key_verify
                              merchantId now vs db) as [E _].
  rewrite E. unfold findOne_voucher.
  destruct (find (fun d => Js.strict_eq (VoucherDoc.voucherId d) id)
                 (Db.vouchers db)) as [d|] eqn:Ef.
  - now apply find_app_some.
  - rewrite (find_app_none _ _ _ Ef).
    destruct (find (fun d => Js.strict_eq (VoucherDoc.voucherId d) id)
                   (map (stored_doc merchantId now)
                        (accepted_of (trace merchantId now db vs))))
      as [d|] eqn:Eg; [|reflexivity].
    exfalso. apply find_some in Eg as [Hin Heq].
    apply in_map_iff in Hin as (v & <- & Hv).
    cbn [stored_doc VoucherDoc.voucherId] in Heq.
    apply strict_eq_true in Heq. subst id. apply Hnot.
    apply in_map.
    exact (accepted_of_incl sha256_hex Key keyFromPublic key_verify
                            merchantId now vs db v Hv).
Qed.

(** The outcome of a voucher with inline key depends on the database
    only through what is stored under its identifier. *)
Lemma outcome_inline merchantId now db1 db2 v :
  Js.truthy (Voucher.publicKeyHex v) = true ->
  findOne_voucher (Voucher.voucherId v) (Db.vouchers db1) =
  findOne_voucher (Voucher.voucherId v) (Db.vouchers db2) ->
  snd (process merchantId now db1 v) = snd (process merchantId now db2 v).
Proof.
  intros Hin Hf. rewrite !process_voucher_first_failure. unfold check_order.
  rewrite !first_failure_app.
  rewrite (early_checks_inline sha256_hex Key keyFromPublic key_verify
                               merchantId db1 db2 v Hin).
  destruct (first_fail merchantId db2 v checks_before_duplicate);
    [reflexivity|].
  cbn [first_failure check_reason]. rewrite Hf.
  destruct (findOne_voucher (Voucher.voucherId v) (Db.vouchers db2));
    reflexivity.
Qed.

(** In a batch of vouchers with inline keys and pairwise distinct
    identifiers every voucher gets the outcome it would get alone on
    the database before the batch, so the outcomes do not depend on the
    order of the batch. *)
Theorem distinct_vouchers_judged_alone merchantId now vs : forall db,
  all_inline vs ->
  NoDup (map Voucher.voucherId vs) ->
  map snd (trace merchantId now db vs) =
  map (fun v => snd (process merchantId now db v)) vs.
Proof.
  induction vs as [|v rest IH]; intros db Hin Hnd; [reflexivity|].
  inversion Hin as [|? ? Hv Hrest]; subst.
  cbn [map] in Hnd. inversion Hnd as [|? ? Hnot Hnd']; subst.
  cbn [sync_trace map].
  destruct (process merchantId now db v) as [db1 o] eqn:E.
  cbn [map snd]. f_equal.
  rewrite (IH db1 Hrest Hnd'). apply map_ext_in. intros w Hw.
  apply outcome_inline.
  - exact (proj1 (Forall_forall _ _) Hrest w Hw).
  - assert (db1 = after merchantId now db [v]) as ->.
    { rewrite db_after_cons, E. reflexivity. }
    apply db_after_other_id. cbn [map In]. intros [H|[]].
    apply Hnot. rewrite H. now apply in_map.
Qed.

End Independence.

Section FinalRuns.

Import Scenario Scenario2.

(** Alice's list before and after five wallet operations, two of them
    successful; both sorts taken to reverse their input. *)
Lemma user_transactions_are_history_run :
  (forall l : list VoucherDoc.t, Permutation (rev l) l)
  /\ (forall l : list UserTx.t, Permutation (rev l) l)
  /\ Js.truthy (Token.userId alice_token) = true
  /\ findOne_user (Token.userId alice_token) (Db.users wallet_db)
     = Some alice
  /\ exists txs',
      user_transactions (@rev VoucherDoc.t) (@rev UserTx.t)
        (fst (wallet_run (Token.userId alice_token) wallet_db wallet_ops))
        alice_token =
      inr (txs', Z.of_nat (0 + 2)).
Proof.
  assert (forall l : list VoucherDoc.t, Permutation (rev l) l) as Hp1.
  { intro l. apply Permutation_sym, Permutation_rev. }
  assert (forall l : list UserTx.t, Permutation (rev l) l) as Hp2.
  { intro l. apply Permutation_sym, Permutation_rev. }
  split; [exact Hp1|]. split; [exact Hp2|]. split; [reflexivity|].
  split; [reflexivity|].
  exact (proj2 (user_transactions_are_history
                  (@rev VoucherDoc.t) (@rev UserTx.t) wallet_db alice_token
                  alice wallet_ops Hp1 Hp2 eq_refl eq_refl)).
Defined.

(** Three vouchers with distinct identifiers and inline keys. *)
Lemma distinct_vouchers_judged_alone_run :
  all_inline [v2; v_invalid_signature; v1]
  /\ NoDup (map Voucher.voucherId [v2; v_invalid_signature; v1])
  /\ map snd (sync_trace Demo.sha256_hex Demo.Key Demo.keyFromPublic
                         Demo.key_verify M1 "t1" db1
                         [v2; v_invalid_signature; v1]) =
     [Synced; Reject "Bad signature"; Reject "Duplicate voucherId"].
Proof.
  assert (all_inline [v2; v_invalid_signature; v1]) as H1
      by (repeat constructor).
  assert (NoDup (map Voucher.voucherId [v2; v_invalid_signature; v1])) as H2.
  { repeat constructor; cbn; intuition discriminate. }
  split; [exact H1|]. split; [exact H2|].
  exact (distinct_vouchers_judged_alone
           Demo.sha256_hex Demo.Key Demo.keyFromPublic Demo.key_verify
           M1 "t1" [v2; v_invalid_signature; v1] db1 H1 H2).
Defined.

End FinalRuns.
